(** * jupyter_client.launcher: a shallow embedding and its properties

    The module [jupyter_client/launcher.py] starts a kernel process.  Its
    functions read the host ([sys.platform], [sys.executable], [os.getpid()],
    [os.defpath], [os.environ]), mutate dictionaries that are shared with the
    caller, call an OS spawn primitive, log, and raise.  The embedding keeps
    these effects: a store of dictionary objects addressed by location (so
    that aliasing between the caller's [env] and [kwargs["env"]] is visible),
    a store of process objects, the list of messages handed to the logger and
    the list of calls made to the spawn primitives, all threaded through a
    state-and-exception monad. *)

From Stdlib Require Import Ascii.
From stdpp Require Import gmap strings list fin_maps pretty.

Local Open Scope Z_scope.
Local Open Scope string_scope.
Local Open Scope list_scope.

Set Warnings "-clear-no-such-hyp".

(** ** Python values and exceptions *)

(** An exception object.  [exn_is_Exception] tells whether its class derives
    from [Exception] (what [except Exception] catches) or only from
    [BaseException] ([KeyboardInterrupt], [SystemExit]). *)
Record exn := Exn {
  exn_is_Exception : bool;
  exn_class : string;
  exn_arg : string;
}.

Global Instance exn_eq_dec : EqDecision exn.
Proof. solve_decision. Defined.

(** Locations of dictionary objects ([os.environ], the caller's [env], the
    copy made by [os.environ.copy()]). *)
Abbreviation loc := nat.

(** The values that flow through the keyword arguments of the launcher. *)
Inductive pyval :=
  | VNone
  | VBool (b : bool)
  | VInt (z : Z)
  | VStr (s : string)
  | VFile (fd : nat)        (* a file object, e.g. [open(os.devnull, "w")] *)
  | VDict (l : loc).        (* a reference to a dictionary object *)

Global Instance pyval_eq_dec : EqDecision pyval.
Proof. solve_decision. Defined.

(** [subprocess.PIPE] *)
Definition PIPE : pyval := VInt (-1).

(** Truthiness of a value, as [if cwd:] tests it. *)
Definition truthy (v : pyval) : bool :=
  match v with
  | VNone => false
  | VBool b => b
  | VInt z => negb (Z.eqb z 0)
  | VStr s => negb (String.eqb s "")
  | VFile _ => true
  | VDict _ => true
  end.

(** [v is None] *)
Definition is_None (v : pyval) : bool :=
  match v with VNone => true | _ => false end.

(** ** Process objects, spawn calls, log messages *)

Inductive stream_state := StreamOpen | StreamClosed.

Global Instance stream_state_eq_dec : EqDecision stream_state.
Proof. solve_decision. Defined.

(** Which OS primitive was invoked: [subprocess.Popen] or
    [asyncio.create_subprocess_exec]. *)
Inductive spawn_kind := Popen | CreateSubprocessExec.

Global Instance spawn_kind_eq_dec : EqDecision spawn_kind.
Proof. solve_decision. Defined.

(** The object returned by a spawn primitive.  [p_stdin] is its [stdin]
    attribute: a stream when the primitive was given [stdin=PIPE], [None]
    otherwise.  [p_win32_interrupt_event] is the attribute the launcher
    attaches on Windows. *)
Record process := Process {
  p_kind : spawn_kind;
  p_cmd : list string;
  p_stdin : option stream_state;
  p_win32_interrupt_event : option pyval;
}.

(** One call of a spawn primitive: the command, the keyword arguments, and
    the contents of the dictionary store at the time of the call (the
    primitive reads [kwargs["env"]] through its reference). *)
Record spawn_call := SpawnCall {
  sc_kind : spawn_kind;
  sc_cmd : list string;
  sc_kwargs : gmap string pyval;
  sc_heap : list (gmap string string);
}.

(** The three arguments formatted into the diagnostic
    ["Failed to run command:\n{}\n    PATH={!r}\n    with kwargs:\n{!r}\n"]. *)
Record log_msg := LogMsg {
  m_cmd : list string;
  m_path : string;
  m_kwargs : gmap string pyval;
}.

(** ** The host and the mutable state *)

(** Everything the launcher reads from its surroundings and does not
    change.  The spawn primitives, the logger and the Windows handle
    functions are outside this module: whether they raise is a field here. *)
Record host := Host {
  platform : string;                         (* sys.platform *)
  executable : string;                       (* sys.executable *)
  getpid : Z;                                (* os.getpid() *)
  defpath : string;                          (* os.defpath *)
  expanduser : gmap string string → string → exn + string;
                                             (* os.path.expanduser, reading os.environ;
                                                it may raise *)
  create_interrupt_event : exn + Z;          (* win_interrupt.create_interrupt_event() *)
  GetCurrentProcess : Z;                     (* _winapi.GetCurrentProcess() *)
  DuplicateHandle : Z → exn + Z;             (* _winapi.DuplicateHandle(pid, pid, pid, 0, True, ...) *)
  open_devnull : option exn;                 (* does open(os.devnull, "w") raise *)
  spawn_fault : spawn_kind → list string → gmap string pyval →
                list (gmap string string) → option exn;
                                             (* does the spawn primitive raise *)
  logger_fault : log_msg → option exn;       (* does get_logger().error(msg) raise *)
}.

(** [os.environ] is the dictionary at location 0. *)
Definition os_environ : loc := 0%nat.

Record state := State {
  heap : list (gmap string string);          (* dictionary objects, by location *)
  files : nat;                               (* file objects opened so far *)
  procs : list process;                      (* process objects, by index *)
  logged : list log_msg;                     (* get_logger().error calls, oldest first *)
  spawned : list spawn_call;                 (* spawn primitive calls, oldest first *)
}.

(** ** The state-and-exception monad *)

Inductive outcome (A : Type) :=
  | Return (a : A)
  | Raise (e : exn).
Arguments Return {A} a.
Arguments Raise {A} e.

Definition M (A : Type) : Type := state → outcome A * state.

Definition ret {A} (a : A) : M A := λ s, (Return a, s).
Definition raise {A} (e : exn) : M A := λ s, (Raise e, s).
Definition bind {A B} (m : M A) (k : A → M B) : M B :=
  λ s, match m s with
       | (Return a, s') => k a s'
       | (Raise e, s') => (Raise e, s')
       end.

Notation "'let*' x ':=' m 'in' k" := (bind m (λ x, k))
  (at level 10, x name, m at level 100, k at level 200, only parsing).
Notation "'let*' ' pat ':=' m 'in' k" :=
  (bind m (λ x, match x with pat => k end))
  (at level 10, pat pattern, m at level 100, k at level 200, only parsing).
Notation "'exec' m 'in' k" := (bind m (λ _, k))
  (at level 10, m at level 100, k at level 200, only parsing).

Definition get : M state := λ s, (Return s, s).
Definition put (s : state) : M unit := λ _, (Return tt, s).
Definition modify (f : state → state) : M unit := λ s, (Return tt, f s).

(** [try: x = rebind(x); a = rest(x)  except Exception as exc: handler(exc, x)].
    The handler sees the local [x] as it is when the exception is raised:
    the old value when [rebind] raised, the new one afterwards.  An
    exception that is not an [Exception] passes through. *)
Definition try_rebind_except_Exception {X A} (x : X) (rebind : X → M X)
    (rest : X → M A) (handler : exn → X → M A) : M A :=
  λ s, match rebind x s with
       | (Raise e, s') =>
           if exn_is_Exception e then handler e x s' else (Raise e, s')
       | (Return x', s') =>
           match rest x' s' with
           | (Return a, s'') => (Return a, s'')
           | (Raise e, s'') =>
               if exn_is_Exception e then handler e x' s'' else (Raise e, s'')
           end
       end.

(** [try: body  finally: fin].  The [finally] clause always runs; when it
    raises, its exception is the one that propagates, whatever [body] did. *)
Definition try_finally {A} (body : M A) (fin : M unit) : M A :=
  λ s, match body s with
       | (r, s') =>
           match fin s' with
           | (Return _, s'') => (r, s'')
           | (Raise e, s'') => (Raise e, s'')
           end
       end.

(** Lift a result of the host into the monad. *)
Definition lift_sum {A} (r : exn + A) : M A :=
  match r with inl e => raise e | inr a => ret a end.

Definition lift_fault (r : option exn) : M unit :=
  match r with Some e => raise e | None => ret tt end.

(** ** Primitive operations on the state *)

Definition set_heap (hp : list (gmap string string)) (s : state) : state :=
  State hp (files s) (procs s) (logged s) (spawned s).
Definition set_files (n : nat) (s : state) : state :=
  State (heap s) n (procs s) (logged s) (spawned s).
Definition set_procs (ps : list process) (s : state) : state :=
  State (heap s) (files s) ps (logged s) (spawned s).
Definition set_logged (ms : list log_msg) (s : state) : state :=
  State (heap s) (files s) (procs s) ms (spawned s).
Definition set_spawned (cs : list spawn_call) (s : state) : state :=
  State (heap s) (files s) (procs s) (logged s) cs.

(** The contents of the dictionary at [l] (empty for a location that holds
    no dictionary; the launcher only ever receives live objects). *)
Definition dict_at (hp : list (gmap string string)) (l : loc) : gmap string string :=
  default ∅ (hp !! l).

(** [d[k] = v] on the dictionary object at [l]: every alias sees it. *)
Definition dict_set (l : loc) (k v : string) : M unit :=
  modify (λ s, set_heap (alter (insert k v) l (heap s)) s).

(** [d[k]]: [KeyError] when the key is missing. *)
Definition dict_getitem (l : loc) (k : string) : M string :=
  λ s, match dict_at (heap s) l !! k with
       | Some v => (Return v, s)
       | None => (Raise (Exn true "KeyError" k), s)
       end.

(** [d.copy()]: a new dictionary object with the same contents. *)
Definition dict_copy (l : loc) : M loc :=
  λ s, (Return (length (heap s)),
        set_heap (heap s ++ [dict_at (heap s) l]) s).

(** [open(os.devnull, "w")] *)
Definition open_devnull_w (h : host) : M pyval :=
  exec lift_fault (open_devnull h) in
  λ s, (Return (VFile (files s)), set_files (S (files s)) s).

(** [get_logger().error(msg)] *)
Definition logger_error (h : host) (msg : log_msg) : M unit :=
  exec lift_fault (logger_fault h msg) in
  modify (λ s, set_logged (logged s ++ [msg]) s).

(** The object a spawn primitive returns when it succeeds. *)
Definition new_process (kind : spawn_kind) (cmd : list string)
    (kwargs : gmap string pyval) : process :=
  {| p_kind := kind;
     p_cmd := cmd;
     p_stdin := if decide (kwargs !! "stdin" = Some PIPE)
                then Some StreamOpen else None;
     p_win32_interrupt_event := None |}.

(** [Popen] and [asyncio.create_subprocess_exec], called with the command
    and the keyword arguments:
    the call is recorded, then the primitive raises or returns a new process
    object (its index in [procs]). *)
Definition spawn (h : host) (kind : spawn_kind) (cmd : list string)
    (kwargs : gmap string pyval) : M nat :=
  λ s, let s1 := set_spawned (spawned s ++ [SpawnCall kind cmd kwargs (heap s)]) s in
       match spawn_fault h kind cmd kwargs (heap s) with
       | Some e => (Raise e, s1)
       | None => (Return (length (procs s1)),
                  set_procs (procs s1 ++ [new_process kind cmd kwargs]) s1)
       end.

(** [subprocess.win32_interrupt_event = v] *)
Definition set_win32_interrupt_event (p : nat) (v : pyval) : M unit :=
  modify (λ s, set_procs
    (alter (λ pr, Process (p_kind pr) (p_cmd pr) (p_stdin pr) (Some v)) p (procs s)) s).

(** [subprocess.stdin.close()]: [AttributeError] when the [stdin] attribute
    is [None]. *)
Definition stdin_close (p : nat) : M unit :=
  λ s, match procs s !! p with
       | Some pr =>
           match p_stdin pr with
           | Some _ =>
               (Return tt,
                set_procs (<[p := Process (p_kind pr) (p_cmd pr) (Some StreamClosed)
                                          (p_win32_interrupt_event pr)]> (procs s)) s)
           | None =>
               (Raise (Exn true "AttributeError"
                         "'NoneType' object has no attribute 'close'"), s)
           end
       | None => (Return tt, s)
       end.

(** [s.endswith(suffix)] and [s.startswith(prefix)] *)
Definition endswith (s suffix : string) : bool :=
  String.prefix (String.rev suffix) (String.rev s).
Definition startswith (s pre : string) : bool := String.prefix pre s.

(** [_winapi.CREATE_NEW_PROCESS_GROUP] *)
Definition CREATE_NEW_PROCESS_GROUP : Z := 0x200.
(** [0x08000000], CREATE_NO_WINDOW *)
Definition CREATE_NO_WINDOW : Z := 0x08000000.

(** [str(n)] for an integer *)
Definition str_int (n : Z) : string := pretty n.

(** ** Calling a function with explicit keywords and a bag *)

(** A call [f(a=..., b=..., **kw)] is rejected before the body of [f] runs
    when the bag [kw] names one of the explicit keywords: [TypeError], got
    multiple values for keyword argument.  [params] are the explicit
    keywords; the exception carries the first one the bag repeats. *)
Definition bind_arguments (params : list string) (kw : gmap string pyval) : M unit :=
  match filter (λ p, is_Some (kw !! p)) params with
  | [] => ret tt
  | p :: _ => raise (Exn true "TypeError" p)
  end.

(** The parameters of [_prepare_process_args], and of the two launchers. *)
Definition prepare_params : list string :=
  ["stdin"; "stdout"; "stderr"; "env"; "independent"; "cwd"].
Definition launch_params : list string := "cmd" :: prepare_params.

(** [list(map(f, l))] for an [f] that may raise: the first element on which
    [f] raises ends the evaluation. *)
Fixpoint list_map_raising {A B} (f : A → exn + B) (l : list A) : exn + list B :=
  match l with
  | [] => inr []
  | x :: l' =>
      match f x with
      | inl e => inl e
      | inr y =>
          match list_map_raising f l' with
          | inl e => inl e
          | inr ys => inr (y :: ys)
          end
      end
  end.

(** ** launcher.py *)

(** [sys.platform == "win32"] *)
Definition is_win32 (h : host) : bool := String.eqb (platform h) "win32".

(** [dict(stdin=_stdin, stdout=_stdout, stderr=_stderr, cwd=cwd, env=env)] *)
Definition dict_main_args (_stdin _stdout _stderr cwd env : pyval) : gmap string pyval :=
  <["stdin" := _stdin]> (<["stdout" := _stdout]> (<["stderr" := _stderr]>
    (<["cwd" := cwd]> (<["env" := env]> ∅)))).

(** [_prepare_process_args] with its keyword arguments and the bag [kw].
    [env] is [None] or a reference to the caller's dictionary.  Returns
    [(kwargs, interrupt_event)]. *)
Definition _prepare_process_args (h : host)
    (stdin stdout stderr : pyval) (env : option loc) (independent : bool)
    (cwd : pyval) (kw : gmap string pyval) : M (gmap string pyval * pyval) :=
  exec bind_arguments prepare_params kw in
  let _stdin := if is_None stdin then PIPE else stdin in
  let redirect_out := endswith (executable h) "pythonw.exe" in
  let* '(_stdout, _stderr) :=
    (if redirect_out then
       let* blackhole := open_devnull_w h in
       ret (if is_None stdout then blackhole else stdout,
            if is_None stderr then blackhole else stderr)
     else ret (stdout, stderr)) in
  let* env := (match env with
               | Some l => ret l
               | None => dict_copy os_environ
               end) in
  let kwargs := kw in                                   (* kw.copy() *)
  let main_args := dict_main_args _stdin _stdout _stderr cwd (VDict env) in
  let kwargs := main_args ∪ kwargs in                   (* kwargs.update(main_args) *)
  if is_win32 h then
    let kwargs := if truthy cwd then <["cwd" := cwd]> kwargs else kwargs in
    let* interrupt_event := lift_sum (create_interrupt_event h) in
    exec dict_set env "JPY_INTERRUPT_EVENT" (str_int interrupt_event) in
    let* v := dict_getitem env "JPY_INTERRUPT_EVENT" in
    exec dict_set env "IPY_INTERRUPT_EVENT" v in
    let* kwargs :=
      (if independent then
         ret (<["creationflags" := VInt CREATE_NEW_PROCESS_GROUP]> kwargs)
       else
         let pid := GetCurrentProcess h in
         let* handle := lift_sum (DuplicateHandle h pid) in
         exec dict_set env "JPY_PARENT_PID" (str_int handle) in
         ret kwargs) in
    let* kwargs :=
      (if redirect_out then
         (* kwargs.setdefault("creationflags", 0) | 0x08000000 *)
         match default (VInt 0) (kwargs !! "creationflags") with
         | VInt z => ret (<["creationflags" := VInt (Z.lor z CREATE_NO_WINDOW)]> kwargs)
         | VBool b =>
             ret (<["creationflags" := VInt (Z.lor (Z.b2z b) CREATE_NO_WINDOW)]> kwargs)
         | _ => raise (Exn true "TypeError" "unsupported operand type(s) for |")
         end
       else ret kwargs) in
    ret (<["close_fds" := VBool false]> kwargs, VInt interrupt_event)
  else
    let interrupt_event := VNone in
    let kwargs := <["start_new_session" := VBool true]> kwargs in
    exec (if negb independent
          then dict_set env "JPY_PARENT_PID" (str_int (getpid h))
          else ret tt) in
    ret (kwargs, interrupt_event).

(** [_handle_subprocess_exception(exc, cmd, env, kwargs)].  [env] is the
    argument the caller of the launcher gave, [None] included. *)
Definition _handle_subprocess_exception (h : host) (exc : exn)
    (cmd : list string) (env : option loc) (kwargs : gmap string pyval) : M unit :=
  try_finally
    (let without_env := filter (λ kv, kv.1 ≠ "env") kwargs in
     let* path :=
       (match env with
        | None => raise (Exn true "AttributeError"
                           "'NoneType' object has no attribute 'get'")
        | Some l => λ s, (Return (default (defpath h) (dict_at (heap s) l !! "PATH")), s)
        end) in
     logger_error h (LogMsg cmd path without_env))
    (raise exc).

(** [_finish_process_launch(subprocess, stdin, interrupt_event)] *)
Definition _finish_process_launch (h : host) (subprocess : option nat)
    (stdin : pyval) (interrupt_event : pyval) : M unit :=
  match subprocess with
  | None => raise (Exn true "AssertionError" "")
  | Some p =>
      exec (if is_win32 h
            then set_win32_interrupt_event p interrupt_event
            else ret tt) in
      if is_None stdin then stdin_close p else ret tt
  end.

(** [cmd = list(map(os.path.expanduser, cmd))], reading [os.environ] *)
Definition expanduser_cmd (h : host) (cmd : list string) : M (list string) :=
  λ s, match list_map_raising (expanduser h (dict_at (heap s) os_environ)) cmd with
       | inl e => (Raise e, s)
       | inr cmd' => (Return cmd', s)
       end.

(** [launch_kernel] with its arguments and the bag [kw].  Inside the [try]
    the local [cmd] is rebound to the expanded list and then handed to
    [Popen]; the handler receives [cmd] as it is when the exception is
    raised.  The result is [proc]. *)
Definition launch_kernel (h : host) (cmd : list string)
    (stdin stdout stderr : pyval) (env : option loc) (independent : bool)
    (cwd : pyval) (kw : gmap string pyval) : M (option nat) :=
  exec bind_arguments launch_params kw in
  let proc : option nat := None in
  let* '(kwargs, interrupt_event) :=
    _prepare_process_args h stdin stdout stderr env independent cwd kw in
  let* proc :=
    try_rebind_except_Exception cmd
      (expanduser_cmd h)
      (λ cmd, let* p := spawn h Popen cmd kwargs in ret (Some p))
      (λ exc cmd, exec _handle_subprocess_exception h exc cmd env kwargs in ret proc) in
  exec _finish_process_launch h proc stdin interrupt_event in
  ret proc.

(** [async_launch_kernel(...)]: [Popen] on win32, otherwise
    [asyncio.create_subprocess_exec]. *)
Definition async_launch_kernel (h : host) (cmd : list string)
    (stdin stdout stderr : pyval) (env : option loc) (independent : bool)
    (cwd : pyval) (kw : gmap string pyval) : M (option nat) :=
  exec bind_arguments launch_params kw in
  let proc : option nat := None in
  let* '(kwargs, interrupt_event) :=
    _prepare_process_args h stdin stdout stderr env independent cwd kw in
  let* proc :=
    try_rebind_except_Exception cmd
      (expanduser_cmd h)
      (λ cmd,
         if is_win32 h then
           let* p := spawn h Popen cmd kwargs in ret (Some p)
         else
           let* p := spawn h CreateSubprocessExec cmd kwargs in ret (Some p))
      (λ exc cmd, exec _handle_subprocess_exception h exc cmd env kwargs in ret proc) in
  exec _finish_process_launch h proc stdin interrupt_event in
  ret proc.

(** ** The platform's [os.path.expanduser] on POSIX

    [posixpath.expanduser] of the Python standard library: a path that does
    not start with [~] is returned as it is; otherwise the text between the
    [~] and the first [/] names a user.  An empty name stands for the
    invoking user, whose home is [$HOME], or the password-database entry of
    the current uid ([pw_dir]) when [HOME] is unset; a non-empty name is
    looked up with [pwd.getpwnam].  A lookup that finds no entry
    ([KeyError]) returns the path unchanged; any other exception of
    [pwd.getpwnam], such as the [ValueError] for a name with an embedded
    NUL, is not caught and leaves [expanduser]. *)

(** [rest] split at its first [/]: what is before it, and the remainder
    from the [/] on. *)
Fixpoint split_at_sep (rest : string) : string * string :=
  match rest with
  | EmptyString => (EmptyString, EmptyString)
  | String c rest' =>
      if Ascii.eqb c "/"%char then (EmptyString, rest)
      else let '(name, tail) := split_at_sep rest' in (String c name, tail)
  end.

(** [userhome.rstrip('/')] *)
Fixpoint rstrip_sep (s : string) : string :=
  match s with
  | EmptyString => EmptyString
  | String c s' =>
      match rstrip_sep s' with
      | EmptyString => if Ascii.eqb c "/"%char then EmptyString else String c EmptyString
      | t => String c t
      end
  end.

(** [path[1:]] *)
Definition from_1 (path : string) : string :=
  match path with
  | EmptyString => EmptyString
  | String _ rest => rest
  end.

(** [getpwnam name] is [inr (Some dir)] for an entry, [inr None] for
    [KeyError], [inl e] for any other exception. *)
Definition posix_expanduser (pw_dir : option string)
    (getpwnam : string → exn + option string)
    (environ : gmap string string) (path : string) : exn + string :=
  if negb (startswith path "~") then inr path
  else
    let '(name, tail) := split_at_sep (from_1 path) in
    let expanded (userhome : string) : exn + string :=
      let r := rstrip_sep userhome +:+ tail in
      inr (if String.eqb r "" then "/" else r) in
    if String.eqb name "" then
      match environ !! "HOME" with
      | Some userhome => expanded userhome
      | None =>
          match pw_dir with
          | Some userhome => expanded userhome
          | None => inr path
          end
      end
    else
      match getpwnam name with
      | inl e => inl e
      | inr None => inr path
      | inr (Some userhome) => expanded userhome
      end.

(** ** Requests *)

(** The bag names none of the parameters of the launchers. *)
Definition bag_ok (kw : gmap string pyval) : bool :=
  forallb (λ p, bool_decide (kw !! p = None)) launch_params.

(** The arguments of one launch call.  A keyword that names a parameter is
    bound to that parameter and never lands in the bag, so the bag of a
    call names no parameter. *)
Record request := Request {
  r_cmd : list string;
  r_stdin : pyval;
  r_stdout : pyval;
  r_stderr : pyval;
  r_env : option loc;
  r_independent : bool;
  r_cwd : pyval;
  r_kw : gmap string pyval;
  r_kw_ok : bag_ok r_kw = true;
}.

Definition prepare (h : host) (r : request) : M (gmap string pyval * pyval) :=
  _prepare_process_args h (r_stdin r) (r_stdout r) (r_stderr r) (r_env r)
    (r_independent r) (r_cwd r) (r_kw r).

Definition launch (h : host) (r : request) : M (option nat) :=
  launch_kernel h (r_cmd r) (r_stdin r) (r_stdout r) (r_stderr r) (r_env r)
    (r_independent r) (r_cwd r) (r_kw r).

Definition async_launch (h : host) (r : request) : M (option nat) :=
  async_launch_kernel h (r_cmd r) (r_stdin r) (r_stdout r) (r_stderr r) (r_env r)
    (r_independent r) (r_cwd r) (r_kw r).

(** The environment a spawn call hands to the OS: the contents, at the time
    of the call, of the dictionary [kwargs["env"]] refers to. *)
Definition spawn_env (c : spawn_call) : option (gmap string string) :=
  match sc_kwargs c !! "env" with
  | Some (VDict l) => sc_heap c !! l
  | _ => None
  end.

(** * Vocabulary of the statements *)

(** The spawn calls made by running [m] from [s]. *)
Definition calls_of {A} (m : M A) (s : state) : list spawn_call :=
  drop (length (spawned s)) (spawned (m s).2).

(** The location of the dictionary that becomes [kwargs["env"]]: the
    caller's, or the fresh copy of [os.environ]. *)
Definition env_loc (r : request) (s : state) : loc :=
  match r_env r with Some l => l | None => length (heap s) end.

(** The dictionary store once [env] is resolved. *)
Definition heap_resolved (r : request) (s : state) : list (gmap string string) :=
  match r_env r with
  | Some _ => heap s
  | None => heap s ++ [dict_at (heap s) os_environ]
  end.

(** [sys.executable.endswith("pythonw.exe")] *)
Definition redirect_out (h : host) : bool := endswith (executable h) "pythonw.exe".

(** The resolved output stream for a caller value [v]. *)
Definition resolved_out (h : host) (s : state) (v : pyval) : pyval :=
  if redirect_out h && is_None v then VFile (files s) else v.

(** [kwargs] right after [kwargs.update(main_args)]. *)
Definition base_kwargs (h : host) (r : request) (s : state) : gmap string pyval :=
  dict_main_args (if is_None (r_stdin r) then PIPE else r_stdin r)
    (resolved_out h s (r_stdout r)) (resolved_out h s (r_stderr r))
    (r_cwd r) (VDict (env_loc r s)) ∪ r_kw r.

(** The store after the two interrupt-event keys are written at [l]. *)
Definition win32_events (ev : Z) (l : loc) (hp : list (gmap string string)) :=
  alter (insert "IPY_INTERRUPT_EVENT" (str_int ev)) l
    (alter (insert "JPY_INTERRUPT_EVENT" (str_int ev)) l hp).

(** The primitive the asynchronous launcher invokes. *)
Definition async_kind (h : host) : spawn_kind :=
  if is_win32 h then Popen else CreateSubprocessExec.

(** The text the two launchers have in common, with the primitive as a
    parameter; only used to prove facts about both at once. *)
Definition launch_body (h : host) (kind : spawn_kind) (r : request) : M (option nat) :=
  exec bind_arguments launch_params (r_kw r) in
  let* '(kwargs, interrupt_event) := prepare h r in
  let* proc :=
    try_rebind_except_Exception (r_cmd r)
      (expanduser_cmd h)
      (λ cmd, let* p := spawn h kind cmd kwargs in ret (Some p))
      (λ exc cmd, exec _handle_subprocess_exception h exc cmd (r_env r) kwargs in ret None) in
  exec _finish_process_launch h proc (r_stdin r) interrupt_event in
  ret proc.

(** The command after [os.path.expanduser], or the exception it raises,
    in the state preparation leaves. *)
Definition expanded_cmd (h : host) (r : request) (s1 : state) : exn + list string :=
  list_map_raising (expanduser h (dict_at (heap s1) os_environ)) (r_cmd r).

(** The one spawn call a launch makes once preparation and expansion
    succeeded. *)
Definition the_call (kind : spawn_kind) (cmd : list string)
    (kwargs : gmap string pyval) (s1 : state) : spawn_call :=
  SpawnCall kind cmd kwargs (heap s1).

(** What the primitive does with the call [c]: the exception it raises, or
    [None] when it returns a process. *)
Definition call_fault (h : host) (c : spawn_call) : option exn :=
  spawn_fault h (sc_kind c) (sc_cmd c) (sc_kwargs c) (sc_heap c).

(** The state right after the primitive was called. *)
Definition called (c : spawn_call) (s1 : state) : state :=
  set_spawned (spawned s1 ++ [c]) s1.



(** The mapping the child environment is resolved from: the caller's
    dictionary, or [os.environ] when the caller gives none. *)
Definition env_source (r : request) (s : state) : gmap string string :=
  match r_env r with
  | Some l => dict_at (heap s) l
  | None => dict_at (heap s) os_environ
  end.

(** The caller's [env], when given, refers to a live dictionary. *)
Definition env_live (r : request) (s : state) : Prop :=
  ∀ l, r_env r = Some l → (l < length (heap s))%nat.

(** The keys the launcher writes into the child environment. *)
Definition injected_keys : list string :=
  ["JPY_PARENT_PID"; "JPY_INTERRUPT_EVENT"; "IPY_INTERRUPT_EVENT"].

(** What a launch with caller environment [env] may change between the
    stores [hp] and [hp']: nothing in an existing dictionary other than the
    caller's, and in the caller's only the injected keys. *)
Definition env_frame (env : option loc) (hp hp' : list (gmap string string)) : Prop :=
  (∀ l, (l < length hp)%nat → env ≠ Some l → hp' !! l = hp !! l) ∧
  (∀ l k, env = Some l → k ∉ injected_keys →
          dict_at hp' l !! k = dict_at hp l !! k).

(** [userhome.rstrip('/') + tail], or ["/"] when that is empty: the result
    of a successful expansion. *)
Definition join_home (userhome tail : string) : string :=
  let r := rstrip_sep userhome +:+ tail in
  if String.eqb r "" then "/" else r.

(** No [/] occurs in [name]. *)
Fixpoint no_sep (name : string) : bool :=
  match name with
  | EmptyString => true
  | String c name' => negb (Ascii.eqb c "/"%char) && no_sep name'
  end.

(** [tail] is what may follow a user name: nothing, or a path from [/] on. *)
Definition is_tail (tail : string) : Prop :=
  tail = "" ∨ startswith tail "/" = true.

(** ** Concrete hosts and states used in the examples *)

Definition ENOENT : exn := Exn true "FileNotFoundError" "[Errno 2] No such file or directory".

(** A NUL occurs in [name]. *)
Fixpoint has_nul (name : string) : bool :=
  match name with
  | EmptyString => false
  | String c name' => Ascii.eqb c Ascii.zero || has_nul name'
  end.

(** A password database with the single user [bob]; like [pwd.getpwnam] it
    raises [ValueError] on a name with an embedded NUL. *)
Definition passwd (name : string) : exn + option string :=
  if has_nul name then inl (Exn true "ValueError" "embedded null byte")
  else if String.eqb name "bob" then inr (Some "/home/bob") else inr None.

(** A Linux host on which every spawn succeeds. *)
Definition linux : host :=
  {| platform := "linux";
     executable := "/usr/bin/python3";
     getpid := 4242;
     defpath := "/bin:/usr/bin";
     expanduser := posix_expanduser (Some "/home/u") passwd;
     create_interrupt_event := inl (Exn true "ImportError" "win_interrupt");
     GetCurrentProcess := -1;
     DuplicateHandle := λ _, inl (Exn true "ImportError" "_winapi");
     open_devnull := None;
     spawn_fault := λ _ _ _ _, None;
     logger_fault := λ _, None |}.

(** The same host, where the executable of the command is missing. *)
Definition linux_enoent : host :=
  {| platform := "linux";
     executable := "/usr/bin/python3";
     getpid := 4242;
     defpath := "/bin:/usr/bin";
     expanduser := posix_expanduser (Some "/home/u") passwd;
     create_interrupt_event := inl (Exn true "ImportError" "win_interrupt");
     GetCurrentProcess := -1;
     DuplicateHandle := λ _, inl (Exn true "ImportError" "_winapi");
     open_devnull := None;
     spawn_fault := λ _ _ _ _, Some ENOENT;
     logger_fault := λ _, None |}.

(** A Windows host: the interrupt event is handle 700, the duplicated
    parent handle is 812.  Its environment has neither [USERPROFILE] nor
    [HOMEPATH], where [ntpath.expanduser] returns its argument. *)
Definition windows : host :=
  {| platform := "win32";
     executable := "C:\Python\python.exe";
     getpid := 4242;
     defpath := ".;C:\bin";
     expanduser := λ _ path, inr path;
     create_interrupt_event := inr 700;
     GetCurrentProcess := -1;
     DuplicateHandle := λ _, inr 812;
     open_devnull := None;
     spawn_fault := λ _ _ _ _, None;
     logger_fault := λ _, None |}.

(** A state whose [os.environ] holds [HOME] and [PATH], with one more
    dictionary (at location 1) for a caller to pass as [env]. *)
Definition st0 : state :=
  {| heap := [ <["HOME" := "/home/u"]> (<["PATH" := "/usr/local/bin:/usr/bin"]> ∅);
               <["LANG" := "C"]> ∅ ];
     files := 0;
     procs := [];
     logged := [];
     spawned := [] |}.

(** [launch_kernel(["~/bin/run", "--flag"], env=d)], [d] the dictionary at
    location 1. *)
Definition req0 : request :=
  {| r_cmd := ["~/bin/run"; "--flag"];
     r_stdin := VNone; r_stdout := VNone; r_stderr := VNone;
     r_env := Some 1%nat; r_independent := false; r_cwd := VNone; r_kw := ∅; r_kw_ok := eq_refl |}.

(** A bag that names every explicit parameter of [_prepare_process_args]
    but [independent]. *)
Definition kw_collide : gmap string pyval :=
  <["stdin" := VInt 7]> (<["stdout" := VInt 8]> (<["stderr" := VInt 9]>
    (<["cwd" := VStr "/"]> (<["env" := VStr "x"]>
      (<["bufsize" := VInt 0]> ∅))))).

(** The call made by [launch linux req0] from [st0]. *)
Definition call0 : spawn_call :=
  {| sc_kind := Popen;
     sc_cmd := ["/home/u/bin/run"; "--flag"];
     sc_kwargs := <["start_new_session" := VBool true]>
                    (dict_main_args PIPE VNone VNone VNone (VDict 1));
     sc_heap := [ <["HOME" := "/home/u"]> (<["PATH" := "/usr/local/bin:/usr/bin"]> ∅);
                  <["JPY_PARENT_PID" := "4242"]> (<["LANG" := "C"]> ∅) ] |}.

(** The call made by [launch windows req0] from [st0]. *)
Definition call_win : spawn_call :=
  {| sc_kind := Popen;
     sc_cmd := ["~/bin/run"; "--flag"];
     sc_kwargs := <["close_fds" := VBool false]>
                    (dict_main_args PIPE VNone VNone VNone (VDict 1));
     sc_heap := [ <["HOME" := "/home/u"]> (<["PATH" := "/usr/local/bin:/usr/bin"]> ∅);
                  <["JPY_PARENT_PID" := "812"]> (<["IPY_INTERRUPT_EVENT" := "700"]>
                    (<["JPY_INTERRUPT_EVENT" := "700"]> (<["LANG" := "C"]> ∅))) ] |}.

(** A host where the executable is missing and the logger itself raises. *)
Definition linux_enoent_badlog : host :=
  {| platform := "linux";
     executable := "/usr/bin/python3";
     getpid := 4242;
     defpath := "/bin:/usr/bin";
     expanduser := posix_expanduser (Some "/home/u") passwd;
     create_interrupt_event := inl (Exn true "ImportError" "win_interrupt");
     GetCurrentProcess := -1;
     DuplicateHandle := λ _, inl (Exn true "ImportError" "_winapi");
     open_devnull := None;
     spawn_fault := λ _ _ _ _, Some ENOENT;
     logger_fault := λ _, Some (Exn true "ValueError" "I/O operation on closed file") |}.

Definition EPERM : exn := Exn true "PermissionError" "[Errno 1] Operation not permitted".

(** A POSIX host on which the primitive cannot create a new session: it
    raises exactly when it is asked for one. *)
Definition linux_no_setsid : host :=
  {| platform := "linux";
     executable := "/usr/bin/python3";
     getpid := 4242;
     defpath := "/bin:/usr/bin";
     expanduser := posix_expanduser (Some "/home/u") passwd;
     create_interrupt_event := inl (Exn true "ImportError" "win_interrupt");
     GetCurrentProcess := -1;
     DuplicateHandle := λ _, inl (Exn true "ImportError" "_winapi");
     open_devnull := None;
     spawn_fault := λ _ _ kwargs _,
       if decide (kwargs !! "start_new_session" = Some (VBool true))
       then Some EPERM else None;
     logger_fault := λ _, None |}.

(** A launcher that itself runs inside a kernel: its [os.environ] already
    holds [JPY_PARENT_PID]. *)
Definition st_nested : state :=
  {| heap := [ <["JPY_PARENT_PID" := "99"]> (<["HOME" := "/home/u"]> ∅) ];
     files := 0; procs := []; logged := []; spawned := [] |}.

(** [launch_kernel(["python"], independent=True)] *)
Definition req_independent : request :=
  {| r_cmd := ["python"];
     r_stdin := VNone; r_stdout := VNone; r_stderr := VNone;
     r_env := None; r_independent := true; r_cwd := VNone; r_kw := ∅; r_kw_ok := eq_refl |}.

(** A command with the three kinds of [~] elements. *)
Definition req_tilde : request :=
  {| r_cmd := ["~bob/x"; "~zed/y"; "~/bin/run"; "--flag"];
     r_stdin := VNone; r_stdout := VNone; r_stderr := VNone;
     r_env := None; r_independent := false; r_cwd := VNone; r_kw := ∅; r_kw_ok := eq_refl |}.

(** The call made by [launch linux req_tilde] from [st0]. *)
Definition call_tilde : spawn_call :=
  {| sc_kind := Popen;
     sc_cmd := ["/home/bob/x"; "~zed/y"; "/home/u/bin/run"; "--flag"];
     sc_kwargs := <["start_new_session" := VBool true]>
                    (dict_main_args PIPE VNone VNone VNone (VDict 2));
     sc_heap := [ <["HOME" := "/home/u"]> (<["PATH" := "/usr/local/bin:/usr/bin"]> ∅);
                  <["LANG" := "C"]> ∅;
                  <["JPY_PARENT_PID" := "4242"]> (<["HOME" := "/home/u"]>
                    (<["PATH" := "/usr/local/bin:/usr/bin"]> ∅)) ] |}.

(** [launch_kernel(["/does/not/exist"])], every other argument left at its
    default. *)
Definition req_missing : request :=
  {| r_cmd := ["/does/not/exist"];
     r_stdin := VNone; r_stdout := VNone; r_stderr := VNone;
     r_env := None; r_independent := false; r_cwd := VNone; r_kw := ∅; r_kw_ok := eq_refl |}.

(** The same Windows host run by [pythonw.exe]. *)
Definition windows_pythonw : host :=
  {| platform := "win32";
     executable := "C:\Python\pythonw.exe";
     getpid := 4242;
     defpath := ".;C:\bin";
     expanduser := λ _ path, inr path;
     create_interrupt_event := inr 700;
     GetCurrentProcess := -1;
     DuplicateHandle := λ _, inr 812;
     open_devnull := None;
     spawn_fault := λ _ _ _ _, None;
     logger_fault := λ _, None |}.

(** ** Vocabulary of the further properties *)

(** The integer a value stands for as an operand of [|]: an [int], or a
    [bool]; any other value makes [|] raise [TypeError]. *)
Definition int_of (v : pyval) : option Z :=
  match v with
  | VInt z => Some z
  | VBool b => Some (Z.b2z b)
  | _ => None
  end.

(** The names the launcher sets itself in the keyword arguments, on POSIX
    and on win32. *)
Definition posix_keys : list string :=
  ["stdin"; "stdout"; "stderr"; "cwd"; "env"; "start_new_session"].
Definition win32_keys : list string :=
  ["stdin"; "stdout"; "stderr"; "cwd"; "env"; "creationflags"; "close_fds"].

(** The child environment on win32 before the parent handle is added. *)
Definition with_events (ev : Z) (d : gmap string string) : gmap string string :=
  <["IPY_INTERRUPT_EVENT" := str_int ev]> (<["JPY_INTERRUPT_EVENT" := str_int ev]> d).

(** The mapping [d] with the keys the launcher injects: on win32 the two
    interrupt-event keys for the event [ev] and, unless the request is
    independent, [JPY_PARENT_PID] for the duplicated handle [hd]; on POSIX
    [JPY_PARENT_PID] for [os.getpid()] unless the request is independent. *)
Definition injected_env (h : host) (independent : bool) (ev hd : Z)
    (d : gmap string string) : gmap string string :=
  if is_win32 h then
    if independent then with_events ev d
    else <["JPY_PARENT_PID" := str_int hd]> (with_events ev d)
  else
    if independent then d
    else <["JPY_PARENT_PID" := str_int (getpid h)]> d.

(** [launch_kernel(["kernel"], stderr=3, cwd="C:\\w", creationflags=4)] *)
Definition req_pythonw : request :=
  {| r_cmd := ["kernel"];
     r_stdin := VNone; r_stdout := VNone; r_stderr := VInt 3;
     r_env := Some 1%nat; r_independent := false; r_cwd := VStr "C:\w";
     r_kw := <["creationflags" := VInt 4]> (<["bufsize" := VInt 0]> ∅);
     r_kw_ok := eq_refl |}.

(** The call made by [launch windows_pythonw req_pythonw] from [st0]. *)
Definition call_pythonw : spawn_call :=
  {| sc_kind := Popen;
     sc_cmd := ["kernel"];
     sc_kwargs := <["close_fds" := VBool false]> (<["creationflags" := VInt 0x08000004]>
                    (<["bufsize" := VInt 0]>
                      (dict_main_args PIPE (VFile 0) (VInt 3) (VStr "C:\w") (VDict 1))));
     sc_heap := [ <["HOME" := "/home/u"]> (<["PATH" := "/usr/local/bin:/usr/bin"]> ∅);
                  <["JPY_PARENT_PID" := "812"]> (<["IPY_INTERRUPT_EVENT" := "700"]>
                    (<["JPY_INTERRUPT_EVENT" := "700"]> (<["LANG" := "C"]> ∅))) ] |}.

Definition EWIN : exn := Exn true "OSError" "[WinError 6] The handle is invalid".

(** A Windows host on which the interrupt event cannot be created. *)
Definition windows_no_event : host :=
  {| platform := "win32";
     executable := "C:\Python\python.exe";
     getpid := 4242;
     defpath := ".;C:\bin";
     expanduser := λ _ path, inr path;
     create_interrupt_event := inl EWIN;
     GetCurrentProcess := -1;
     DuplicateHandle := λ _, inr 812;
     open_devnull := None;
     spawn_fault := λ _ _ _ _, None;
     logger_fault := λ _, None |}.

(** A Windows host on which the process handle cannot be duplicated. *)
Definition windows_no_dup : host :=
  {| platform := "win32";
     executable := "C:\Python\python.exe";
     getpid := 4242;
     defpath := ".;C:\bin";
     expanduser := λ _ path, inr path;
     create_interrupt_event := inr 700;
     GetCurrentProcess := -1;
     DuplicateHandle := λ _, inl EWIN;
     open_devnull := None;
     spawn_fault := λ _ _ _ _, None;
     logger_fault := λ _, None |}.

(** [launch_kernel(["kernel"], env=d, creationflags=None)] *)
Definition req_flags_none : request :=
  {| r_cmd := ["kernel"];
     r_stdin := VNone; r_stdout := VNone; r_stderr := VNone;
     r_env := Some 1%nat; r_independent := false; r_cwd := VNone;
     r_kw := <["creationflags" := VNone]> ∅;
     r_kw_ok := eq_refl |}.

(** [launch_kernel(["~\0", "--flag"], env=d)]: the user name after the
    [~] is a NUL, on which [pwd.getpwnam] raises [ValueError]. *)
Definition req_nul : request :=
  {| r_cmd := [String "~"%char (String Ascii.zero ""); "--flag"];
     r_stdin := VNone; r_stdout := VNone; r_stderr := VNone;
     r_env := Some 1%nat; r_independent := false; r_cwd := VNone; r_kw := ∅;
     r_kw_ok := eq_refl |}.

(** * Properties *)

Create HintDb monad_ops.
#[local] Hint Unfold bind ret raise get put modify lift_sum lift_fault
  try_rebind_except_Exception try_finally : monad_ops.
#[local] Hint Unfold dict_set dict_getitem dict_copy open_devnull_w logger_error
  set_win32_interrupt_event : monad_ops.

(** Unfold the monad and its primitive operations. *)
Ltac run := autounfold with monad_ops in *; simpl in *.

(** Split on the next effectful sub-computation of the goal. *)
Ltac step :=
  match goal with
  | |- context [match ?x with inl _ => _ | inr _ => _ end] => destruct x eqn:?
  | |- context [match ?x with Some _ => _ | None => _ end] => destruct x eqn:?
  | |- context [match ?x with Return _ => _ | Raise _ => _ end] => destruct x eqn:?
  | |- context [match ?x with (_, _) => _ end] => destruct x eqn:?
  | |- context [if ?b then _ else _] => destruct b eqn:?
  end; simpl in *.

(** Split on the host calls and dictionary reads of the Windows branch of
    [_prepare_process_args], innermost first. *)
Ltac inner_case :=
  match goal with
  | |- context [dict_at ?hp ?l !! ?k] => destruct (dict_at hp l !! k) eqn:?
  | |- context [DuplicateHandle ?h ?x] => destruct (DuplicateHandle h x) eqn:?
  | |- context [default (VInt 0) ?x] => destruct (default (VInt 0) x) eqn:?
  end.

(** ** The call protocol *)

Lemma bind_arguments_ok params (kw : gmap string pyval) :
  (∀ p, p ∈ params → kw !! p = None) → bind_arguments params kw = ret tt.
Proof.
  intros Hk. unfold bind_arguments.
  assert (filter (λ p, is_Some (kw !! p)) params = []) as ->; [|done].
  induction params as [|p params IH]; [done|].
  rewrite filter_cons. rewrite decide_False.
  - apply IH. intros q Hq. apply Hk. by right.
  - rewrite (Hk p) by left. by intros [? ?].
Qed.

(** A bag that names a parameter is rejected, and nothing is done. *)
Lemma bind_arguments_collision params (kw : gmap string pyval) p :
  p ∈ params → is_Some (kw !! p) →
  ∃ q, q ∈ params ∧ is_Some (kw !! q) ∧
       bind_arguments params kw = raise (Exn true "TypeError" q).
Proof.
  intros Hp Hs. unfold bind_arguments.
  destruct (filter (λ p, is_Some (kw !! p)) params) as [|q l] eqn:Hf.
  - assert (p ∈ filter (λ p, is_Some (kw !! p)) params) as Hin
      by (by apply list_elem_of_filter).
    rewrite Hf in Hin. by apply elem_of_nil in Hin.
  - assert (q ∈ filter (λ p, is_Some (kw !! p)) params) as Hin
      by (rewrite Hf; left).
    apply list_elem_of_filter in Hin as [Hq1 Hq2]. by exists q.
Qed.

Lemma bag_ok_None (kw : gmap string pyval) p :
  bag_ok kw = true → p ∈ launch_params → kw !! p = None.
Proof.
  unfold bag_ok. rewrite forallb_forall. intros Hall Hp.
  apply list_elem_of_In in Hp. apply Hall in Hp.
  by apply bool_decide_eq_true in Hp.
Qed.

Lemma launch_passes r : bind_arguments launch_params (r_kw r) = ret tt.
Proof.
  apply bind_arguments_ok. intros p Hp. apply bag_ok_None; [apply r_kw_ok|done].
Qed.

Lemma prepare_passes r : bind_arguments prepare_params (r_kw r) = ret tt.
Proof.
  apply bind_arguments_ok. intros p Hp.
  apply bag_ok_None; [apply r_kw_ok|]. by right.
Qed.

(** ** The handler and the finalisation *)

Section Handler.
Context (h : host).

(** The [finally: raise exc] decides the outcome of the handler. *)
Lemma handle_outcome exc cmd env kwargs s :
  (_handle_subprocess_exception h exc cmd env kwargs s).1 = Raise exc.
Proof.
  unfold _handle_subprocess_exception, try_finally.
  destruct (bind _ _ s) as [r s']. reflexivity.
Qed.

(** The handler touches nothing but the list of logged messages. *)
Lemma handle_frame exc cmd env kwargs s :
  let s' := (_handle_subprocess_exception h exc cmd env kwargs s).2 in
  heap s' = heap s ∧ files s' = files s ∧ procs s' = procs s ∧
  spawned s' = spawned s.
Proof.
  unfold _handle_subprocess_exception. run.
  destruct env as [l|]; simpl; [|done].
  destruct (logger_fault h _); simpl; done.
Qed.

(** What the handler logs: nothing without a caller-supplied [env] or when
    the logger raises, one message otherwise. *)
Lemma handle_logged exc cmd env kwargs s :
  logged (_handle_subprocess_exception h exc cmd env kwargs s).2 =
  match env with
  | None => logged s
  | Some l =>
      let msg := LogMsg cmd (default (defpath h) (dict_at (heap s) l !! "PATH"))
                   (filter (λ kv, kv.1 ≠ "env") kwargs) in
      match logger_fault h msg with
      | Some _ => logged s
      | None => logged s ++ [msg]
      end
  end.
Proof.
  unfold _handle_subprocess_exception. run.
  destruct env as [l|]; simpl; [|done].
  destruct (logger_fault h _); simpl; done.
Qed.

(** The dictionary comprehension removes the key [env] and nothing else. *)
Lemma without_env_delete (kwargs : gmap string pyval) :
  filter (λ kv, kv.1 ≠ "env") kwargs = delete "env" kwargs.
Proof.
  apply map_eq. intros k. apply option_eq. intros v.
  rewrite map_lookup_filter_Some. simpl.
  destruct (decide (k = "env")) as [->|Hne].
  - rewrite lookup_delete_eq. naive_solver.
  - rewrite lookup_delete_ne by done. naive_solver.
Qed.

(** The finalisation leaves dictionaries, log and spawn calls alone. *)
Lemma finish_frame proc stdin ie s :
  let s' := (_finish_process_launch h proc stdin ie s).2 in
  heap s' = heap s ∧ files s' = files s ∧ logged s' = logged s ∧
  spawned s' = spawned s.
Proof.
  unfold _finish_process_launch, stdin_close. run.
  destruct proc as [p|]; simpl; [|done].
  destruct (is_win32 h), (is_None stdin); simpl; try done.
  all: repeat step; done.
Qed.
End Handler.

(** ** Updating the newest object of a store *)

Lemma alter_last {A} (f : A → A) (l : list A) (x : A) :
  alter f (length l) (l ++ [x]) = l ++ [f x].
Proof.
  rewrite <- (Nat.add_0_r (length l)) at 1. by rewrite alter_app_r.
Qed.

Lemma insert_last {A} (l : list A) (x y : A) :
  <[length l := y]> (l ++ [x]) = l ++ [y].
Proof.
  rewrite <- (Nat.add_0_r (length l)) at 1. by rewrite insert_app_r.
Qed.

(** ** The spawn primitive *)

Lemma spawn_calls h kind cmd kwargs s :
  spawned (spawn h kind cmd kwargs s).2 =
  spawned s ++ [SpawnCall kind cmd kwargs (heap s)].
Proof. unfold spawn. destruct (spawn_fault _ _ _ _ _); done. Qed.

Lemma spawn_frame h kind cmd kwargs s :
  let s' := (spawn h kind cmd kwargs s).2 in
  heap s' = heap s ∧ files s' = files s ∧ logged s' = logged s.
Proof. unfold spawn. destruct (spawn_fault _ _ _ _ _); done. Qed.

(** ** Preparing the spawn arguments *)

Section Prepare.
Context (h : host).

Lemma prepare_posix r s kwargs ie s' :
  is_win32 h = false →
  prepare h r s = (Return (kwargs, ie), s') →
  ie = VNone ∧
  kwargs = <["start_new_session" := VBool true]> (base_kwargs h r s) ∧
  heap s' = (if r_independent r then heap_resolved r s
             else alter (insert "JPY_PARENT_PID" (str_int (getpid h)))
                    (env_loc r s) (heap_resolved r s)) ∧
  procs s' = procs s ∧ logged s' = logged s ∧ spawned s' = spawned s.
Proof.
  intros Hw. unfold prepare, _prepare_process_args, base_kwargs, resolved_out,
    env_loc, heap_resolved. rewrite (prepare_passes r). fold (redirect_out h). rewrite Hw.
  destruct r as [cmd stdin stdout stderr env ind cwd kw ok]; cbn [r_cmd r_stdin r_stdout r_stderr r_env r_independent r_cwd r_kw].
  autounfold with monad_ops.
  destruct (redirect_out h), (open_devnull h), env, ind; cbn; intros [= <- <- <-]; cbn; done.
Qed.

(** Reading back a key that was just written: the value written, and the
    location holds a dictionary. *)
Lemma getitem_after_set (hp : list (gmap string string)) l k v x :
  dict_at (alter (insert k v) l hp) l !! k = Some x →
  x = v ∧ (l < length hp)%nat.
Proof.
  unfold dict_at. rewrite list_lookup_alter_eq.
  destruct (hp !! l) as [d|] eqn:E; simpl.
  - rewrite lookup_insert_eq. intros [= <-]. split; [done|].
    by eapply lookup_lt_Some.
  - by rewrite lookup_empty.
Qed.

(** On win32 [kwargs["cwd"] = cwd] repeats what [main_args] already did. *)
Lemma cwd_again a b c cwd e (kw : gmap string pyval) :
  (if truthy cwd then <["cwd" := cwd]> (dict_main_args a b c cwd e ∪ kw)
   else dict_main_args a b c cwd e ∪ kw) = dict_main_args a b c cwd e ∪ kw.
Proof.
  destruct (truthy cwd); [|done]. apply insert_id.
  apply lookup_union_Some_l. unfold dict_main_args. by simplify_map_eq.
Qed.

Lemma prepare_win32 r s kwargs ie s' :
  is_win32 h = true →
  prepare h r s = (Return (kwargs, ie), s') →
  ∃ ev, create_interrupt_event h = inr ev ∧ ie = VInt ev ∧
    (env_loc r s < length (heap_resolved r s))%nat ∧
    (if r_independent r
     then heap s' = win32_events ev (env_loc r s) (heap_resolved r s)
     else ∃ hd, DuplicateHandle h (GetCurrentProcess h) = inr hd ∧
            heap s' = alter (insert "JPY_PARENT_PID" (str_int hd)) (env_loc r s)
                        (win32_events ev (env_loc r s) (heap_resolved r s))) ∧
    kwargs !! "close_fds" = Some (VBool false) ∧
    (∀ k, k ≠ "creationflags" → k ≠ "close_fds" →
          kwargs !! k = base_kwargs h r s !! k) ∧
    procs s' = procs s ∧ logged s' = logged s ∧ spawned s' = spawned s.
Proof.
  intros Hw. unfold prepare, _prepare_process_args, base_kwargs, resolved_out,
    env_loc, heap_resolved, win32_events. rewrite (prepare_passes r). fold (redirect_out h). rewrite Hw.
  destruct r as [cmd stdin stdout stderr env ind cwd kw ok];
    cbn [r_cmd r_stdin r_stdout r_stderr r_env r_independent r_cwd r_kw].
  autounfold with monad_ops.
  destruct (redirect_out h), (open_devnull h), env, (create_interrupt_event h) as [e0|ev]; cbn;
    try (intros [= <- <- <-]; fail).
  all: rewrite cwd_again.
  all: match goal with
       | |- context [dict_main_args ?a ?b ?c ?d ?e ∪ ?kw] =>
           generalize (dict_main_args a b c d e ∪ kw); intros base
       end.
  all: match goal with
       | |- context [dict_at ?hp ?l !! ?k] =>
           destruct (dict_at hp l !! k) as [v|] eqn:Hget
       end; cbn; try (intros [= <- <- <-]; fail).
  all: apply getitem_after_set in Hget as [-> Hlt].
  all: destruct ind; cbn;
    [|destruct (DuplicateHandle h (GetCurrentProcess h)) as [e0|hd] eqn:Hdup; cbn;
      try (intros [= <- <- <-]; fail)].
  all: try match goal with
       | |- context [default (VInt 0) ?x] => destruct (default (VInt 0) x)
       end; cbn; try (intros [= <- <- <-]; fail).
  all: intros [= <- <- <-]; cbn.
  all: exists ev; split_and!; try done.
  all: try (rewrite length_app; cbn; lia).
  all: try (by (eexists; split; [reflexivity|])).
  all: try (intros k ? ?; by rewrite !lookup_insert_ne by done).
  all: apply lookup_insert_eq.
Qed.

(** Preparation never touches processes, log or spawn calls, whatever
    its outcome. *)
Lemma prepare_frame r s :
  let s' := (prepare h r s).2 in
  procs s' = procs s ∧ logged s' = logged s ∧ spawned s' = spawned s.
Proof.
  unfold prepare, _prepare_process_args. rewrite (prepare_passes r).
  destruct r as [cmd stdin stdout stderr env ind cwd kw ok];
    cbn [r_cmd r_stdin r_stdout r_stderr r_env r_independent r_cwd r_kw].
  autounfold with monad_ops.
  destruct (endswith _ _), (open_devnull h), env, ind, (is_win32 h),
    (create_interrupt_event h); cbn; try done.
  all: repeat (inner_case; cbn; try done).
Qed.

(** The five explicit parameters as they appear in the final [kwargs]. *)
Lemma base_kwargs_main r s :
  base_kwargs h r s !! "stdin" = Some (if is_None (r_stdin r) then PIPE else r_stdin r) ∧
  base_kwargs h r s !! "stdout" = Some (resolved_out h s (r_stdout r)) ∧
  base_kwargs h r s !! "stderr" = Some (resolved_out h s (r_stderr r)) ∧
  base_kwargs h r s !! "cwd" = Some (r_cwd r) ∧
  base_kwargs h r s !! "env" = Some (VDict (env_loc r s)).
Proof.
  unfold base_kwargs, dict_main_args.
  split_and!; apply lookup_union_Some_l; by simplify_map_eq.
Qed.

Lemma prepare_kwargs r s kwargs ie s' k :
  prepare h r s = (Return (kwargs, ie), s') →
  k ∈ ["stdin"; "stdout"; "stderr"; "cwd"; "env"] →
  kwargs !! k = base_kwargs h r s !! k.
Proof.
  intros Hp Hk. destruct (is_win32 h) eqn:Hw.
  - apply prepare_win32 in Hp as (ev & _ & _ & _ & _ & _ & Hk' & _); [|done].
    apply Hk'; intros ->; set_solver.
  - apply prepare_posix in Hp as (_ & -> & _); [|done].
    apply lookup_insert_ne. intros <-. set_solver.
Qed.
End Prepare.

(** ** The two launchers *)

Section Launch.
Context (h : host).

Lemma launch_is_body r : launch h r = launch_body h Popen r.
Proof. reflexivity. Qed.

Lemma async_launch_is_body r : async_launch h r = launch_body h (async_kind h) r.
Proof.
  unfold async_launch, async_launch_kernel, launch_body, async_kind, prepare.
  destruct (is_win32 h); reflexivity.
Qed.

(** Preparation raised: the launch raises the same exception from the
    same state, and no primitive is called. *)
Lemma body_prepare_raises kind r s e s1 :
  prepare h r s = (Raise e, s1) →
  launch_body h kind r s = (Raise e, s1).
Proof.
  intros Hp. unfold launch_body. rewrite launch_passes.
  unfold bind, ret. by rewrite Hp.
Qed.

(** [os.path.expanduser] raised on an element of the command: no
    primitive is called; an [Exception] goes through the handler, which
    receives the command as the caller gave it. *)
Lemma body_expand_fault_eq kind r s kwargs ie s1 e :
  prepare h r s = (Return (kwargs, ie), s1) →
  expanded_cmd h r s1 = inl e →
  launch_body h kind r s =
  (Raise e,
   if exn_is_Exception e then
     (_handle_subprocess_exception h e (r_cmd r) (r_env r) kwargs s1).2
   else s1).
Proof.
  intros Hp Hx. unfold expanded_cmd in Hx.
  unfold launch_body. rewrite launch_passes. unfold bind, ret. rewrite Hp. cbn.
  unfold try_rebind_except_Exception, expanduser_cmd. rewrite Hx.
  destruct (exn_is_Exception e) eqn:He; [|done].
  unfold bind.
  pose proof (handle_outcome h e (r_cmd r) (r_env r) kwargs s1) as Ho.
  destruct (_handle_subprocess_exception h e (r_cmd r) (r_env r) kwargs s1) as [o s2].
  cbn in Ho. by subst o.
Qed.

Lemma body_expand_fault kind r s kwargs ie s1 e :
  prepare h r s = (Return (kwargs, ie), s1) →
  expanded_cmd h r s1 = inl e →
  let res := launch_body h kind r s in
  res.1 = Raise e ∧
  heap res.2 = heap s1 ∧ procs res.2 = procs s1 ∧
  spawned res.2 = spawned s1 ∧
  logged res.2 =
    (if exn_is_Exception e then
       logged (_handle_subprocess_exception h e (r_cmd r) (r_env r) kwargs s1).2
     else logged s1) ∧
  files res.2 = files s1.
Proof.
  intros Hp Hx res. subst res. rewrite (body_expand_fault_eq _ _ _ _ _ _ _ Hp Hx).
  cbn [fst snd]. destruct (exn_is_Exception e); [|done].
  destruct (handle_frame h e (r_cmd r) (r_env r) kwargs s1) as (Hh & Hfi & Hpr & Hsp).
  by rewrite Hh, Hfi, Hpr, Hsp.
Qed.

(** The primitive raised: the launch raises that exception; an
    [Exception] first goes through the handler, which receives the
    expanded command. *)
Lemma body_fault_eq kind r s kwargs ie s1 cmd' e :
  prepare h r s = (Return (kwargs, ie), s1) →
  expanded_cmd h r s1 = inr cmd' →
  call_fault h (the_call kind cmd' kwargs s1) = Some e →
  launch_body h kind r s =
  (Raise e,
   if exn_is_Exception e then
     (_handle_subprocess_exception h e cmd'
        (r_env r) kwargs (called (the_call kind cmd' kwargs s1) s1)).2
   else called (the_call kind cmd' kwargs s1) s1).
Proof.
  intros Hp Hx Hf. unfold call_fault, the_call in Hf. cbn in Hf.
  unfold expanded_cmd in Hx.
  unfold launch_body. rewrite launch_passes. unfold bind, ret. rewrite Hp. cbn.
  unfold try_rebind_except_Exception, expanduser_cmd. rewrite Hx.
  unfold bind, spawn. rewrite Hf. cbn.
  destruct (exn_is_Exception e) eqn:He; cbn; [|done].
  unfold called, the_call.
  match goal with
  | |- context [_handle_subprocess_exception h e ?c ?v ?k ?st] =>
      pose proof (handle_outcome h e c v k st) as Ho;
      destruct (_handle_subprocess_exception h e c v k st) as [o s2]
  end.
  cbn in Ho. by subst o.
Qed.

Lemma body_fault kind r s kwargs ie s1 cmd' e :
  prepare h r s = (Return (kwargs, ie), s1) →
  expanded_cmd h r s1 = inr cmd' →
  call_fault h (the_call kind cmd' kwargs s1) = Some e →
  let res := launch_body h kind r s in
  res.1 = Raise e ∧
  heap res.2 = heap s1 ∧ procs res.2 = procs s1 ∧
  spawned res.2 = spawned s1 ++ [the_call kind cmd' kwargs s1] ∧
  logged res.2 =
    (if exn_is_Exception e then
       logged (_handle_subprocess_exception h e cmd' (r_env r) kwargs s1).2
     else logged s1) ∧
  files res.2 = files s1.
Proof.
  intros Hp Hx Hf res. subst res.
  rewrite (body_fault_eq _ _ _ _ _ _ _ _ Hp Hx Hf). cbn [fst snd].
  destruct (exn_is_Exception e); [|done].
  match goal with
  | |- context [_handle_subprocess_exception h e ?c ?v ?k (called ?cl s1)] =>
      pose proof (handle_frame h e c v k (called cl s1)) as (Hh & Hfi & Hpr & Hsp);
      rewrite Hh, Hfi, Hpr, Hsp, !handle_logged
  end.
  done.
Qed.

(** The primitive returned a process: the launch returns it, with the
    interrupt event attached on win32 and a synthesized stdin closed. *)
Lemma body_ok kind r s kwargs ie s1 cmd' :
  prepare h r s = (Return (kwargs, ie), s1) →
  expanded_cmd h r s1 = inr cmd' →
  call_fault h (the_call kind cmd' kwargs s1) = None →
  let res := launch_body h kind r s in
  let c := the_call kind cmd' kwargs s1 in
  res.1 = Return (Some (length (procs s1))) ∧
  heap res.2 = heap s1 ∧ logged res.2 = logged s1 ∧
  spawned res.2 = spawned s1 ++ [c] ∧
  procs res.2 = procs s1 ++
    [Process kind cmd'
       (if is_None (r_stdin r) then Some StreamClosed
        else p_stdin (new_process kind cmd' kwargs))
       (if is_win32 h then Some ie else None)] ∧
  files res.2 = files s1.
Proof.
  intros Hp Hx Hf res c. subst res c.
  pose proof (prepare_kwargs h r s kwargs ie s1 "stdin" Hp ltac:(set_solver)) as Hin.
  destruct (base_kwargs_main h r s) as (Hin' & _). rewrite Hin' in Hin. clear Hin'.
  unfold call_fault, the_call in *. cbn in Hf. unfold expanded_cmd in Hx.
  unfold launch_body. rewrite launch_passes. unfold bind, ret. rewrite Hp. cbn.
  unfold try_rebind_except_Exception, expanduser_cmd. rewrite Hx.
  unfold bind, spawn. rewrite Hf. cbn.
  unfold _finish_process_launch, stdin_close, new_process. run.
  destruct (is_win32 h), (is_None (r_stdin r)) eqn:Hn; cbn.
  all: rewrite ?list_lookup_alter_eq, ?list_lookup_middle by done; cbn.
  all: rewrite ?Hin; cbn.
  all: try rewrite decide_True by done; cbn.
  all: rewrite ?alter_last, ?insert_last; cbn.
  all: done.
Qed.

(** A launch calls a primitive once when preparation and the expansion of
    the command succeed, and not at all otherwise. *)
Lemma body_calls kind r s :
  calls_of (launch_body h kind r) s =
  match prepare h r s with
  | (Return (kwargs, _), s1) =>
      match expanded_cmd h r s1 with
      | inr cmd' => [the_call kind cmd' kwargs s1]
      | inl _ => []
      end
  | (Raise _, _) => []
  end.
Proof.
  unfold calls_of.
  pose proof (prepare_frame h r s) as (_ & _ & Hsp).
  destruct (prepare h r s) as [[[kwargs ie]|e] s1] eqn:Hp; cbn in Hsp.
  - destruct (expanded_cmd h r s1) as [e|cmd'] eqn:Hx.
    + destruct (body_expand_fault kind r s kwargs ie s1 e Hp Hx) as (_ & _ & _ & -> & _).
      by rewrite Hsp, drop_all.
    + destruct (call_fault h (the_call kind cmd' kwargs s1)) as [e|] eqn:Hf.
      * destruct (body_fault kind r s kwargs ie s1 cmd' e Hp Hx Hf) as (_ & _ & _ & -> & _).
        by rewrite Hsp, drop_app_length.
      * destruct (body_ok kind r s kwargs ie s1 cmd' Hp Hx Hf) as (_ & _ & _ & -> & _).
        by rewrite Hsp, drop_app_length.
  - rewrite (body_prepare_raises kind r s e s1 Hp). cbn.
    by rewrite Hsp, drop_all.
Qed.

Lemma body_call_inv kind r s c :
  c ∈ calls_of (launch_body h kind r) s →
  ∃ kwargs ie s1 cmd',
    prepare h r s = (Return (kwargs, ie), s1) ∧
    expanded_cmd h r s1 = inr cmd' ∧
    c = the_call kind cmd' kwargs s1.
Proof.
  rewrite body_calls.
  destruct (prepare h r s) as [[[kwargs ie]|e] s1]; [|by intros ?%elem_of_nil].
  destruct (expanded_cmd h r s1) as [e|cmd'] eqn:Hx; [by intros ?%elem_of_nil|].
  intros ->%list_elem_of_singleton. by exists kwargs, ie, s1, cmd'.
Qed.

(** Either launcher is the common body at some primitive. *)
Lemma either_body r (m : M (option nat)) :
  m = launch h r ∨ m = async_launch h r →
  ∃ kind, m = launch_body h kind r.
Proof.
  intros [->| ->].
  - exists Popen. apply launch_is_body.
  - exists (async_kind h). apply async_launch_is_body.
Qed.

(** A launch that returns a process: preparation and expansion succeeded,
    the primitive did not raise, and the process is the newest one,
    finalised. *)
Lemma body_returns kind r s p :
  (launch_body h kind r s).1 = Return (Some p) →
  ∃ kwargs ie s1 cmd',
    prepare h r s = (Return (kwargs, ie), s1) ∧
    expanded_cmd h r s1 = inr cmd' ∧
    call_fault h (the_call kind cmd' kwargs s1) = None ∧
    procs (launch_body h kind r s).2 !! p =
      Some (Process kind cmd'
              (if is_None (r_stdin r) then Some StreamClosed
               else p_stdin (new_process kind cmd' kwargs))
              (if is_win32 h then Some ie else None)).
Proof.
  intros Hr.
  destruct (prepare h r s) as [[[kwargs ie]|e] s1] eqn:Hp.
  - destruct (expanded_cmd h r s1) as [e|cmd'] eqn:Hx.
    + destruct (body_expand_fault kind r s kwargs ie s1 e Hp Hx) as (He & _).
      rewrite He in Hr. discriminate.
    + destruct (call_fault h (the_call kind cmd' kwargs s1)) as [e|] eqn:Hf.
      * destruct (body_fault kind r s kwargs ie s1 cmd' e Hp Hx Hf) as (He & _).
        rewrite He in Hr. discriminate.
      * destruct (body_ok kind r s kwargs ie s1 cmd' Hp Hx Hf) as (Ho & _ & _ & _ & Hpr & _).
        rewrite Ho in Hr. injection Hr as <-.
        exists kwargs, ie, s1, cmd'. split_and!; try done.
        rewrite Hpr. by apply list_lookup_middle.
  - rewrite (body_prepare_raises kind r s e s1 Hp) in Hr. discriminate.
Qed.

(** The four ways a launch can go. *)
Lemma body_cases kind r s :
  (∃ e s1, prepare h r s = (Raise e, s1)) ∨
  (∃ kwargs ie s1 e, prepare h r s = (Return (kwargs, ie), s1) ∧
                     expanded_cmd h r s1 = inl e) ∨
  (∃ kwargs ie s1 cmd' e, prepare h r s = (Return (kwargs, ie), s1) ∧
                          expanded_cmd h r s1 = inr cmd' ∧
                          call_fault h (the_call kind cmd' kwargs s1) = Some e) ∨
  (∃ kwargs ie s1 cmd', prepare h r s = (Return (kwargs, ie), s1) ∧
                        expanded_cmd h r s1 = inr cmd' ∧
                        call_fault h (the_call kind cmd' kwargs s1) = None).
Proof.
  destruct (prepare h r s) as [[[kwargs ie]|e] s1] eqn:Hp; [|left; eauto].
  destruct (expanded_cmd h r s1) as [e|cmd'] eqn:Hx; [right; left; eauto 10|].
  destruct (call_fault h (the_call kind cmd' kwargs s1)) as [e|] eqn:Hf.
  - right; right; left. eauto 10.
  - right; right; right. eauto 10.
Qed.
End Launch.

(** * The claims *)

(** Split on how a launch goes: preparation raises, the expansion of the
    command raises, the primitive raises, or the primitive returns. *)
Ltac launch_cases h kind r s :=
  destruct (body_cases h kind r s)
    as [(e & s1 & Hp)
       |[(kwargs & ie & s1 & e & Hp & Hx)
        |[(kwargs & ie & s1 & cmd' & e & Hp & Hx & Hf)
         |(kwargs & ie & s1 & cmd' & Hp & Hx & Hf)]]].

(** ** C10: the explicit parameters and the bag *)

(** C10, as stated, fails: a bag that names [stdin] beside the explicit
    [stdin] is not overwritten; the call of [_prepare_process_args] is
    rejected with [TypeError] before its body runs, and so is the call of
    [launch_kernel], which calls no primitive and changes nothing. *)
Lemma C10_colliding_bag_is_rejected :
  kw_collide !! "stdin" = Some (VInt 7) ∧
  _prepare_process_args linux VNone (VInt 5) VNone (Some 1%nat) false (VStr "/tmp")
    kw_collide st0 = (Raise (Exn true "TypeError" "stdin"), st0) ∧
  launch_kernel linux ["python"] VNone (VInt 5) VNone (Some 1%nat) false (VStr "/tmp")
    kw_collide st0 = (Raise (Exn true "TypeError" "stdin"), st0).
Proof. split_and!; vm_compute; reflexivity. Qed.

(** A bag that is not accepted names a parameter. *)
Lemma bag_not_ok (kw : gmap string pyval) :
  bag_ok kw = false → ∃ p, p ∈ launch_params ∧ is_Some (kw !! p).
Proof.
  unfold bag_ok. generalize launch_params. intros l.
  induction l as [|p l IH]; cbn; [done|].
  destruct (bool_decide (kw !! p = None)) eqn:Hd; cbn.
  - intros (q & Hq & Hs)%IH. exists q. split; [by right|done].
  - intros _. exists p. split; [left|].
    apply bool_decide_eq_false in Hd. by destruct (kw !! p).
Qed.

(** In the call a launcher makes, the five main arguments are the
    explicitly resolved values. *)
Lemma call_kwargs_main h r s (m : M (option nat)) c :
  m = launch h r ∨ m = async_launch h r →
  c ∈ calls_of m s →
  sc_kwargs c !! "stdin" = Some (if is_None (r_stdin r) then PIPE else r_stdin r) ∧
  sc_kwargs c !! "stdout" = Some (resolved_out h s (r_stdout r)) ∧
  sc_kwargs c !! "stderr" = Some (resolved_out h s (r_stderr r)) ∧
  sc_kwargs c !! "cwd" = Some (r_cwd r) ∧
  sc_kwargs c !! "env" = Some (VDict (env_loc r s)).
Proof.
  intros [kind ->]%either_body
    (kwargs & ie & s1 & cmd' & Hp & Hx & ->)%body_call_inv.
  cbn [the_call sc_kwargs].
  destruct (base_kwargs_main h r s) as (H1 & H2 & H3 & H4 & H5).
  rewrite <- H1, <- H2, <- H3, <- H4, <- H5.
  split_and!; eapply prepare_kwargs; try exact Hp; set_solver.
Qed.

(** C10, amended.  A call of [_prepare_process_args] whose bag names one
    of its explicit parameters is rejected with [TypeError] before the
    body runs: nothing is overwritten and the state is as it was.
    Whenever one of the two launchers calls its primitive, the bag named
    none of the launcher's parameters, and the spawn-argument dictionary
    maps [stdin], [stdout], [stderr], [cwd] and [env] to the explicitly
    resolved values. *)
Theorem C10_explicit_parameters_and_bag h :
  (∀ stdin stdout stderr env independent cwd (kw : gmap string pyval) s p,
     p ∈ prepare_params → is_Some (kw !! p) →
     ∃ q, q ∈ prepare_params ∧ is_Some (kw !! q) ∧
          _prepare_process_args h stdin stdout stderr env independent cwd kw s =
            (Raise (Exn true "TypeError" q), s)) ∧
  (∀ cmd stdin stdout stderr env independent cwd (kw : gmap string pyval) s
     (m : M (option nat)) c,
     m = launch_kernel h cmd stdin stdout stderr env independent cwd kw ∨
     m = async_launch_kernel h cmd stdin stdout stderr env independent cwd kw →
     c ∈ calls_of m s →
     (∀ p, p ∈ launch_params → kw !! p = None) ∧
     sc_kwargs c !! "stdin" = Some (if is_None stdin then PIPE else stdin) ∧
     sc_kwargs c !! "stdout" = Some (resolved_out h s stdout) ∧
     sc_kwargs c !! "stderr" = Some (resolved_out h s stderr) ∧
     sc_kwargs c !! "cwd" = Some cwd ∧
     sc_kwargs c !! "env" =
       Some (VDict (match env with Some l => l | None => length (heap s) end))).
Proof.
  split.
  - intros stdin stdout stderr env independent cwd kw s p Hp Hs.
    destruct (bind_arguments_collision prepare_params kw p Hp Hs) as (q & Hq & Hqs & Hb).
    exists q. split_and!; try done.
    unfold _prepare_process_args. rewrite Hb. reflexivity.
  - intros cmd stdin stdout stderr env independent cwd kw s m c Hm Hc.
    destruct (bag_ok kw) eqn:Hok.
    + split; [intros p Hp; by apply bag_ok_None|].
      apply (call_kwargs_main h
               (Request cmd stdin stdout stderr env independent cwd kw Hok) s m c);
        [|done].
      destruct Hm as [->| ->]; [left|right]; reflexivity.
    + exfalso. destruct (bag_not_ok kw Hok) as (p & Hp & Hs).
      destruct (bind_arguments_collision launch_params kw p Hp Hs) as (q & _ & _ & Hb).
      assert ((m s).2 = s) as Hs'.
      { destruct Hm as [->| ->]; unfold launch_kernel, async_launch_kernel;
          rewrite Hb; reflexivity. }
      unfold calls_of in Hc. rewrite Hs', drop_all in Hc.
      by apply elem_of_nil in Hc.
Qed.

Lemma C10_witness :
  (∃ q, q ∈ prepare_params ∧ is_Some (kw_collide !! q) ∧
        _prepare_process_args linux VNone (VInt 5) VNone (Some 1%nat) false
          (VStr "/tmp") kw_collide st0 = (Raise (Exn true "TypeError" q), st0)) ∧
  call0 ∈ calls_of (launch linux req0) st0 ∧
  sc_kwargs call0 !! "stdin" = Some PIPE ∧
  sc_kwargs call0 !! "env" = Some (VDict 1).
Proof.
  split.
  - apply (proj1 (C10_explicit_parameters_and_bag linux)
             VNone (VInt 5) VNone (Some 1%nat) false (VStr "/tmp") kw_collide st0 "stdin").
    + vm_compute. apply list_elem_of_here.
    + eexists. vm_compute. reflexivity.
  - assert (call0 ∈ calls_of (launch linux req0) st0) as Hc
      by (vm_compute; apply list_elem_of_here).
    split; [exact Hc|].
    destruct (proj2 (C10_explicit_parameters_and_bag linux)
                ["~/bin/run"; "--flag"] VNone VNone VNone (Some 1%nat) false VNone ∅
                st0 (launch linux req0) call0 (or_introl eq_refl) Hc)
      as (_ & H1 & _ & _ & _ & H5).
    split; [exact H1|exact H5].
Defined.

(** ** C7: the synthesized stdin pipe *)

(** C7.  In both launchers: when the caller supplies no stdin, the spawn
    primitive receives [stdin=PIPE] (not [None]), a launch whose primitive
    does not raise returns a process, and the stdin stream of the returned
    process is closed; when the caller supplies a stdin, the primitive
    receives that very value and the launcher closes nothing. *)
Theorem C7_synthesized_stdin_is_closed h r s (m : M (option nat)) c :
  m = launch h r ∨ m = async_launch h r →
  c ∈ calls_of m s →
  (is_None (r_stdin r) = true →
     sc_kwargs c !! "stdin" = Some PIPE ∧
     (call_fault h c = None → ∃ p, (m s).1 = Return (Some p)) ∧
     (∀ p, (m s).1 = Return (Some p) →
        ∃ pr, procs (m s).2 !! p = Some pr ∧ p_stdin pr = Some StreamClosed)) ∧
  (is_None (r_stdin r) = false →
     sc_kwargs c !! "stdin" = Some (r_stdin r) ∧
     (∀ p, (m s).1 = Return (Some p) →
        ∃ pr, procs (m s).2 !! p = Some pr ∧ p_stdin pr ≠ Some StreamClosed)).
Proof.
  intros [kind ->]%either_body Hc.
  apply body_call_inv in Hc as (kwargs & ie & s1 & cmd' & Hp & Hx & ->).
  pose proof (prepare_kwargs h r s kwargs ie s1 "stdin" Hp ltac:(set_solver)) as Hin.
  destruct (base_kwargs_main h r s) as (Hin' & _). rewrite Hin' in Hin. clear Hin'.
  split; intros Hn; rewrite Hn in Hin; (split; [exact Hin|]).
  - split.
    + intros Hf. destruct (body_ok h kind r s kwargs ie s1 cmd' Hp Hx Hf) as (Ho & _). eauto.
    + intros p (kw' & ie' & s1' & cmd'' & Hp' & _ & _ & Hpr)%body_returns.
      rewrite Hn in Hpr. eauto.
  - intros p (kw' & ie' & s1' & cmd'' & Hp' & _ & _ & Hpr)%body_returns.
    rewrite Hn in Hpr. eexists. split; [exact Hpr|]. cbn.
    by destruct (decide _).
Qed.

Lemma call0_made : call0 ∈ calls_of (launch linux req0) st0.
Proof. vm_compute. apply list_elem_of_here. Defined.

Lemma C7_witness :
  call0 ∈ calls_of (launch linux req0) st0 ∧
  is_None (r_stdin req0) = true ∧
  sc_kwargs call0 !! "stdin" = Some PIPE ∧
  ∃ pr, procs (launch linux req0 st0).2 !! 0%nat = Some pr ∧
        p_stdin pr = Some StreamClosed.
Proof.
  destruct (C7_synthesized_stdin_is_closed linux req0 st0 (launch linux req0) call0
              (or_introl eq_refl) call0_made) as [H _].
  destruct (H eq_refl) as (H1 & _ & H3).
  split; [exact call0_made|]. split; [reflexivity|].
  split; [exact H1|]. apply H3. vm_compute. reflexivity.
Defined.

(** ** C5: the interrupt event on win32 *)

(** The dictionary at a live location after the win32 writes. *)
Lemma win32_events_lookup ev l (hp : list (gmap string string)) :
  (l < length hp)%nat →
  ∃ d, win32_events ev l hp !! l = Some d ∧
       d !! "JPY_INTERRUPT_EVENT" = Some (str_int ev) ∧
       d !! "IPY_INTERRUPT_EVENT" = Some (str_int ev).
Proof.
  intros [d0 Hd]%lookup_lt_is_Some. unfold win32_events.
  rewrite !list_lookup_alter_eq, Hd. cbn.
  eexists. split; [reflexivity|]. by simplify_map_eq.
Qed.

(** C5.  On win32, in both launchers and whatever the independence flag:
    the environment handed to the spawn primitive maps
    [JPY_INTERRUPT_EVENT] and [IPY_INTERRUPT_EVENT] to the same string, the
    text of the interrupt event created for this launch; a launch whose
    primitive does not raise returns a process; and the returned process
    carries that event in its [win32_interrupt_event] attribute. *)
Theorem C5_win32_interrupt_event h r s (m : M (option nat)) c :
  is_win32 h = true →
  m = launch h r ∨ m = async_launch h r →
  c ∈ calls_of m s →
  ∃ ev env,
    create_interrupt_event h = inr ev ∧
    spawn_env c = Some env ∧
    env !! "JPY_INTERRUPT_EVENT" = Some (str_int ev) ∧
    env !! "IPY_INTERRUPT_EVENT" = Some (str_int ev) ∧
    (call_fault h c = None → ∃ p, (m s).1 = Return (Some p)) ∧
    (∀ p, (m s).1 = Return (Some p) →
       ∃ pr, procs (m s).2 !! p = Some pr ∧
             p_win32_interrupt_event pr = Some (VInt ev)).
Proof.
  intros Hw [kind ->]%either_body Hc.
  apply body_call_inv in Hc as (kwargs & ie & s1 & cmd' & Hp & Hx & ->).
  pose proof (prepare_kwargs h r s kwargs ie s1 "env" Hp ltac:(set_solver)) as Henv.
  destruct (base_kwargs_main h r s) as (_ & _ & _ & _ & Henv').
  rewrite Henv' in Henv. clear Henv'.
  destruct (prepare_win32 h r s kwargs ie s1 Hw Hp)
    as (ev & Hev & -> & Hlt & Hheap & _).
  destruct (win32_events_lookup ev _ _ Hlt) as (d & Hd & HJ & HI).
  assert (∃ env, heap s1 !! env_loc r s = Some env ∧
                 env !! "JPY_INTERRUPT_EVENT" = Some (str_int ev) ∧
                 env !! "IPY_INTERRUPT_EVENT" = Some (str_int ev))
    as (env & Hlook & HJ' & HI').
  { destruct (r_independent r).
    - rewrite Hheap. eauto.
    - destruct Hheap as (hd & _ & ->). rewrite list_lookup_alter_eq, Hd. cbn.
      eexists. split; [reflexivity|]. by simplify_map_eq. }
  exists ev, env. split_and!; try done.
  - unfold spawn_env, the_call. cbn. by rewrite Henv.
  - intros Hf. destruct (body_ok h kind r s kwargs (VInt ev) s1 cmd' Hp Hx Hf) as (Ho & _). eauto.
  - intros p (kw' & ie' & s1' & cmd'' & Hp' & _ & _ & Hpr)%body_returns.
    rewrite Hp in Hp'. injection Hp' as <- <- <-.
    rewrite Hw in Hpr. eauto.
Qed.

Lemma call_win_made : call_win ∈ calls_of (launch windows req0) st0.
Proof. vm_compute. apply list_elem_of_here. Defined.

Lemma C5_witness :
  is_win32 windows = true ∧
  call_win ∈ calls_of (launch windows req0) st0 ∧
  ∃ ev env,
    create_interrupt_event windows = inr ev ∧
    spawn_env call_win = Some env ∧
    env !! "JPY_INTERRUPT_EVENT" = Some (str_int ev) ∧
    env !! "IPY_INTERRUPT_EVENT" = Some (str_int ev) ∧
    (call_fault windows call_win = None →
       ∃ p, (launch windows req0 st0).1 = Return (Some p)) ∧
    (∀ p, (launch windows req0 st0).1 = Return (Some p) →
       ∃ pr, procs (launch windows req0 st0).2 !! p = Some pr ∧
             p_win32_interrupt_event pr = Some (VInt ev)).
Proof.
  split; [reflexivity|]. split; [exact call_win_made|].
  exact (C5_win32_interrupt_event windows req0 st0 (launch windows req0) call_win
           eq_refl (or_introl eq_refl) call_win_made).
Defined.

(** ** C6: the caller observes the original exception *)

(** C6.  In both launchers, when the spawn primitive raises [exc] the launch
    raises [exc] itself: whether or not [exc] is an [Exception], whether the
    caller gave an [env] or none (where building the message raises
    [AttributeError]), and whether or not the logger raises.  The handler on
    its own always ends by raising the exception it was given. *)
Theorem C6_original_exception_is_raised h r s (m : M (option nat)) c exc :
  m = launch h r ∨ m = async_launch h r →
  c ∈ calls_of m s →
  call_fault h c = Some exc →
  (m s).1 = Raise exc ∧
  ∀ exc' cmd env kwargs s',
    (_handle_subprocess_exception h exc' cmd env kwargs s').1 = Raise exc'.
Proof.
  intros [kind ->]%either_body Hc Hf.
  apply body_call_inv in Hc as (kwargs & ie & s1 & cmd' & Hp & Hx & ->).
  split.
  - by rewrite (body_fault_eq h kind r s kwargs ie s1 cmd' exc Hp Hx Hf).
  - intros. apply handle_outcome.
Qed.

Lemma call0_made_badlog : call0 ∈ calls_of (launch linux_enoent_badlog req0) st0.
Proof. vm_compute. apply list_elem_of_here. Defined.

Lemma C6_witness :
  call0 ∈ calls_of (launch linux_enoent_badlog req0) st0 ∧
  call_fault linux_enoent_badlog call0 = Some ENOENT ∧
  (launch linux_enoent_badlog req0 st0).1 = Raise ENOENT.
Proof.
  split; [exact call0_made_badlog|]. split; [reflexivity|].
  exact (proj1 (C6_original_exception_is_raised linux_enoent_badlog req0 st0
                  (launch linux_enoent_badlog req0) call0 ENOENT
                  (or_introl eq_refl) call0_made_badlog eq_refl)).
Defined.

(** ** C9: the asynchronous launcher builds the same plan *)


(** ** C3: a failing session creation on POSIX *)

(** C3, as stated, fails: on this POSIX host the primitive would succeed
    without the request for a new session, the launcher asks for one, the
    primitive raises, and the launch raises that error to the caller after
    a single call of the primitive. *)
Lemma C3_session_failure_propagates :
  is_win32 linux_no_setsid = false ∧
  calls_of (launch linux_no_setsid req0) st0 = [call0] ∧
  call_fault linux_no_setsid call0 = Some EPERM ∧
  spawn_fault linux_no_setsid Popen (sc_cmd call0)
    (delete "start_new_session" (sc_kwargs call0)) (sc_heap call0) = None ∧
  (launch linux_no_setsid req0 st0).1 = Raise EPERM ∧
  ¬ ∃ p, (launch linux_no_setsid req0 st0).1 = Return (Some p).
Proof.
  split_and!; try (vm_compute; reflexivity).
  intros [p Hp]. vm_compute in Hp. discriminate.
Qed.

(** C3, amended.  On POSIX both launchers call their primitive at most
    once in a launch, and every call they make carries
    [start_new_session=True], whatever the bag holds; there is no second
    attempt: when that call raises, the launch raises the same
    exception. *)
Theorem C3_posix_new_session_no_fallback h r s (m : M (option nat)) :
  is_win32 h = false →
  m = launch h r ∨ m = async_launch h r →
  (length (calls_of m s) ≤ 1)%nat ∧
  ∀ c, c ∈ calls_of m s →
    sc_kwargs c !! "start_new_session" = Some (VBool true) ∧
    ∀ exc, call_fault h c = Some exc → (m s).1 = Raise exc.
Proof.
  intros Hw [kind ->]%either_body. split.
  - rewrite body_calls.
    destruct (prepare h r s) as [[[kwargs ie]|e] s1]; [|cbn; lia].
    destruct (expanded_cmd h r s1); cbn; lia.
  - intros c (kwargs & ie & s1 & cmd' & Hp & Hx & ->)%body_call_inv. split.
    + apply prepare_posix in Hp as (_ & -> & _); [|done]. cbn.
      apply lookup_insert_eq.
    + intros exc Hf.
      by rewrite (body_fault_eq h kind r s kwargs ie s1 cmd' exc Hp Hx Hf).
Qed.

Lemma call0_made_no_setsid : call0 ∈ calls_of (launch linux_no_setsid req0) st0.
Proof. vm_compute. apply list_elem_of_here. Defined.

Lemma C3_witness :
  is_win32 linux_no_setsid = false ∧
  call0 ∈ calls_of (launch linux_no_setsid req0) st0 ∧
  (length (calls_of (launch linux_no_setsid req0) st0) ≤ 1)%nat ∧
  sc_kwargs call0 !! "start_new_session" = Some (VBool true) ∧
  ∀ exc, call_fault linux_no_setsid call0 = Some exc →
         (launch linux_no_setsid req0 st0).1 = Raise exc.
Proof.
  split; [reflexivity|]. split; [exact call0_made_no_setsid|].
  destruct (C3_posix_new_session_no_fallback linux_no_setsid req0 st0
              (launch linux_no_setsid req0) eq_refl (or_introl eq_refl)) as [H1 H2].
  split; [exact H1|]. exact (H2 call0 call0_made_no_setsid).
Defined.

(** ** C4: the parent-identity key *)

Lemma resolved_lookup r s :
  env_live r s →
  heap_resolved r s !! env_loc r s = Some (env_source r s).
Proof.
  unfold env_live, heap_resolved, env_loc, env_source, dict_at.
  destruct (r_env r) as [l|]; intros Hl.
  - destruct (lookup_lt_is_Some_2 (heap s) l (Hl l eq_refl)) as [d Hd].
    by rewrite Hd.
  - by rewrite list_lookup_middle.
Qed.

(** C4, as stated, fails in its second half: an independent launch on POSIX
    from a process whose environment already holds [JPY_PARENT_PID] hands
    that key to the child. *)
Lemma C4_independent_child_still_sees_key :
  is_win32 linux = false ∧
  r_independent req_independent = true ∧
  map (λ c, spawn_env c ≫= (.!! "JPY_PARENT_PID"))
      (calls_of (launch linux req_independent) st_nested) = [Some "99"].
Proof. split_and!; vm_compute; reflexivity. Qed.

(** C4, amended.  In both launchers, for a request that is not independent
    the environment handed to the spawn primitive maps [JPY_PARENT_PID] to
    the text of [os.getpid()] on POSIX and to the text of the duplicated
    handle on win32; for an independent request on POSIX the launcher
    neither writes nor removes the key: the environment handed over is the
    caller's mapping (or the copy of [os.environ]) as it was, so the key is
    absent exactly when it was absent there. *)
Theorem C4_parent_pid_in_spawn_env h r s (m : M (option nat)) c :
  m = launch h r ∨ m = async_launch h r →
  env_live r s →
  c ∈ calls_of m s →
  ∃ env, spawn_env c = Some env ∧
    (r_independent r = false → is_win32 h = false →
       env !! "JPY_PARENT_PID" = Some (str_int (getpid h))) ∧
    (r_independent r = false → is_win32 h = true →
       ∃ hd, DuplicateHandle h (GetCurrentProcess h) = inr hd ∧
             env !! "JPY_PARENT_PID" = Some (str_int hd)) ∧
    (r_independent r = true → is_win32 h = false →
       env = env_source r s ∧
       (env_source r s !! "JPY_PARENT_PID" = None → env !! "JPY_PARENT_PID" = None)).
Proof.
  intros [kind ->]%either_body Hlive Hc.
  apply body_call_inv in Hc as (kwargs & ie & s1 & cmd' & Hp & Hx & ->).
  pose proof (prepare_kwargs h r s kwargs ie s1 "env" Hp ltac:(set_solver)) as Henv.
  destruct (base_kwargs_main h r s) as (_ & _ & _ & _ & Henv').
  rewrite Henv' in Henv. clear Henv'.
  pose proof (resolved_lookup r s Hlive) as Hres.
  unfold spawn_env, the_call. cbn. rewrite Henv.
  destruct (is_win32 h) eqn:Hw.
  - destruct (prepare_win32 h r s kwargs ie s1 Hw Hp)
      as (ev & Hev & -> & Hlt & Hheap & _).
    destruct (win32_events_lookup ev _ _ Hlt) as (d & Hd & _).
    destruct (r_independent r).
    + rewrite Hheap, Hd. eexists. split; [reflexivity|]. split_and!; done.
    + destruct Hheap as (hd & Hdup & ->). rewrite list_lookup_alter_eq, Hd. cbn.
      eexists. split; [reflexivity|]. split_and!; try done.
      intros _ _. exists hd. split; [done|]. apply lookup_insert_eq.
  - apply prepare_posix in Hp as (_ & _ & -> & _); [|done].
    destruct (r_independent r).
    + rewrite Hres. eexists. split; [reflexivity|]. split_and!; done.
    + rewrite list_lookup_alter_eq, Hres. cbn.
      eexists. split; [reflexivity|]. split_and!; try done.
      intros _ _. apply lookup_insert_eq.
Qed.

Lemma req0_live : env_live req0 st0.
Proof. intros l [= <-]. cbn. lia. Defined.

Lemma C4_witness :
  env_live req0 st0 ∧
  call0 ∈ calls_of (launch linux req0) st0 ∧
  ∃ env, spawn_env call0 = Some env ∧
         env !! "JPY_PARENT_PID" = Some "4242".
Proof.
  split; [exact req0_live|]. split; [exact call0_made|].
  destruct (C4_parent_pid_in_spawn_env linux req0 st0 (launch linux req0) call0
              (or_introl eq_refl) req0_live call0_made) as (env & He & Hpid & _).
  exists env. split; [exact He|]. exact (Hpid eq_refl eq_refl).
Defined.

(** ** C1: which dictionaries a launch writes to *)

Lemma frame_refl env hp : env_frame env hp hp.
Proof. by split. Qed.

Lemma frame_copy hp d : env_frame None hp (hp ++ [d]).
Proof.
  split; [|done]. intros l Hl _. by apply lookup_app_l.
Qed.

(** Writing an injected key at the resolved location stays in the frame. *)
Lemma frame_set env hp hp' l k v :
  env_frame env hp hp' →
  env = Some l ∨ (env = None ∧ (length hp ≤ l)%nat) →
  k ∈ injected_keys →
  env_frame env hp (alter (insert k v) l hp').
Proof.
  intros [H1 H2] Hl Hk. split.
  - intros l' Hlt Hne. rewrite list_lookup_alter_ne; [by apply H1|].
    destruct Hl as [->|[_ Hge]]; [congruence|lia].
  - intros l' k' He Hk'. rewrite <- (H2 l' k' He Hk').
    destruct (decide (l = l')) as [<-|Hne].
    + unfold dict_at. rewrite list_lookup_alter_eq.
      destruct (hp' !! l); cbn; [|done].
      apply lookup_insert_ne. intros <-. done.
    + unfold dict_at. by rewrite list_lookup_alter_ne.
Qed.

Section Frame.
Context (h : host).

Lemma prepare_heap_frame r s :
  env_frame (r_env r) (heap s) (heap (prepare h r s).2).
Proof.
  unfold prepare, _prepare_process_args. rewrite (prepare_passes r).
  destruct r as [cmd stdin stdout stderr env ind cwd kw ok];
    cbn [r_cmd r_stdin r_stdout r_stderr r_env r_independent r_cwd r_kw].
  autounfold with monad_ops.
  destruct (endswith _ _), (open_devnull h), env, ind, (is_win32 h),
    (create_interrupt_event h); cbn.
  all: repeat (inner_case; cbn).
  all: repeat (apply frame_set;
               [|(by left) || (right; split; [done|lia])|set_solver]).
  all: first [apply frame_refl | apply frame_copy].
Qed.

(** An independent launch on POSIX writes to no existing dictionary. *)
Lemma prepare_posix_independent r s l :
  is_win32 h = false → r_independent r = true →
  heap (prepare h r s).2 !! l = heap s !! l ∨ (length (heap s) ≤ l)%nat.
Proof.
  intros Hw Hi. unfold prepare, _prepare_process_args. rewrite (prepare_passes r). rewrite Hw, Hi.
  autounfold with monad_ops.
  destruct (endswith _ _), (open_devnull h), (r_env r); cbn; try by left.
  all: destruct (decide (l < length (heap s))%nat); [left|right; lia].
  all: by apply lookup_app_l.
Qed.

(** After preparation nothing writes to a dictionary. *)
Lemma body_heap kind r s :
  heap (launch_body h kind r s).2 = heap (prepare h r s).2.
Proof.
  launch_cases h kind r s; rewrite Hp.
  - by rewrite (body_prepare_raises h kind r s e s1 Hp).
  - by destruct (body_expand_fault h kind r s kwargs ie s1 e Hp Hx) as (_ & -> & _).
  - by destruct (body_fault h kind r s kwargs ie s1 cmd' e Hp Hx Hf) as (_ & -> & _).
  - by destruct (body_ok h kind r s kwargs ie s1 cmd' Hp Hx Hf) as (_ & -> & _).
Qed.
End Frame.

(** C1, as stated, fails: the caller passes the dictionary at location 1 as
    [env]; the launcher hands that same object to the primitive, not a
    copy, and after the launch the caller's dictionary holds
    [JPY_PARENT_PID], which it did not hold before. *)
Lemma C1_caller_env_is_mutated :
  r_env req0 = Some 1%nat ∧
  map (λ c, sc_kwargs c !! "env") (calls_of (launch linux req0) st0) =
    [Some (VDict 1)] ∧
  dict_at (heap st0) 1 !! "JPY_PARENT_PID" = None ∧
  dict_at (heap (launch linux req0 st0).2) 1 !! "JPY_PARENT_PID" = Some "4242" ∧
  heap (launch linux req0 st0).2 !! 1%nat ≠ heap st0 !! 1%nat.
Proof.
  split_and!; try (vm_compute; reflexivity).
  vm_compute. intros [= H].
Qed.

(** The dictionary a call hands to the primitive as [env]: the caller's
    mapping, or the copy of [os.environ], with the injected keys; it is the
    dictionary at that location when the launch ends. *)
Lemma spawn_env_exact h kind r s c :
  env_live r s →
  c ∈ calls_of (launch_body h kind r) s →
  ∃ ev hd,
    (is_win32 h = true →
       create_interrupt_event h = inr ev ∧
       (r_independent r = false → DuplicateHandle h (GetCurrentProcess h) = inr hd)) ∧
    sc_kwargs c !! "env" = Some (VDict (env_loc r s)) ∧
    sc_heap c !! env_loc r s =
      Some (injected_env h (r_independent r) ev hd (env_source r s)) ∧
    heap (launch_body h kind r s).2 = sc_heap c.
Proof.
  intros Hlive (kwargs & ie & s1 & cmd' & Hp & Hx & ->)%body_call_inv.
  pose proof (prepare_kwargs h r s kwargs ie s1 "env" Hp ltac:(set_solver)) as Henv.
  destruct (base_kwargs_main h r s) as (_ & _ & _ & _ & Henv').
  rewrite Henv' in Henv. clear Henv'.
  pose proof (resolved_lookup r s Hlive) as Hres.
  rewrite body_heap, Hp. cbn [the_call sc_kwargs sc_heap snd].
  unfold injected_env. destruct (is_win32 h) eqn:Hw.
  - destruct (prepare_win32 h r s kwargs ie s1 Hw Hp)
      as (ev & Hev & -> & Hlt & Hheap & _).
    destruct (r_independent r).
    + exists ev, 0. split_and!; try done. rewrite Hheap. unfold win32_events.
      by rewrite !list_lookup_alter_eq, Hres.
    + destruct Hheap as (hd & Hdup & ->). exists ev, hd. split_and!; try done.
      unfold win32_events. by rewrite !list_lookup_alter_eq, Hres.
  - exists 0, 0. apply prepare_posix in Hp as (_ & _ & -> & _); [|done].
    split_and!; try done.
    destruct (r_independent r); [done|]. by rewrite list_lookup_alter_eq, Hres.
Qed.

(** C1, amended.  In both launchers, whatever the outcome of the launch:
    every dictionary that existed before the call and is not the caller's
    [env] is left as it was, which covers [os.environ] unless the caller
    passes [os.environ] itself; in a caller-supplied [env] every key that
    is not an injected key is left as it was, and on POSIX with
    [independent] set the whole of it is.  When the primitive is called: a
    caller-supplied [env] is not copied, the primitive receives a
    reference to that object, and that object holds, at the call and when
    the launch ends, its earlier contents with the injected keys written
    into them; without a caller-supplied [env] the primitive receives a
    dictionary that did not exist before the call, which holds the
    contents of [os.environ] with the injected keys. *)
Theorem C1_only_the_caller_env_is_written h r s (m : M (option nat)) :
  m = launch h r ∨ m = async_launch h r →
  (∀ l, (l < length (heap s))%nat → r_env r ≠ Some l →
        heap (m s).2 !! l = heap s !! l) ∧
  (∀ l, r_env r = Some l →
        (∀ k, k ∉ injected_keys →
              dict_at (heap (m s).2) l !! k = dict_at (heap s) l !! k) ∧
        (is_win32 h = false → r_independent r = true → (l < length (heap s))%nat →
         heap (m s).2 !! l = heap s !! l)) ∧
  (∀ c, c ∈ calls_of m s → env_live r s →
     ∃ ev hd,
       (is_win32 h = true →
          create_interrupt_event h = inr ev ∧
          (r_independent r = false →
           DuplicateHandle h (GetCurrentProcess h) = inr hd)) ∧
       match r_env r with
       | Some l =>
           sc_kwargs c !! "env" = Some (VDict l) ∧
           spawn_env c =
             Some (injected_env h (r_independent r) ev hd (dict_at (heap s) l)) ∧
           heap (m s).2 !! l =
             Some (injected_env h (r_independent r) ev hd (dict_at (heap s) l))
       | None =>
           sc_kwargs c !! "env" = Some (VDict (length (heap s))) ∧
           spawn_env c =
             Some (injected_env h (r_independent r) ev hd
                     (dict_at (heap s) os_environ)) ∧
           heap (m s).2 !! length (heap s) =
             Some (injected_env h (r_independent r) ev hd
                     (dict_at (heap s) os_environ))
       end).
Proof.
  intros [kind ->]%either_body.
  split_and!.
  - rewrite body_heap. by destruct (prepare_heap_frame h r s) as [H1 _].
  - intros l Hl. rewrite body_heap.
    destruct (prepare_heap_frame h r s) as [_ H2]. split.
    + intros k Hk. by apply H2.
    + intros Hw Hi Hlt.
      destruct (prepare_posix_independent h r s l Hw Hi) as [?|?]; [done|lia].
  - intros c Hc Hlive.
    destruct (spawn_env_exact h kind r s c Hlive Hc) as (ev & hd & Hw & Henv & Hchild & Hend).
    exists ev, hd. split; [done|].
    unfold spawn_env. rewrite Hend, Henv.
    unfold env_loc, env_source in *. by destruct (r_env r).
Qed.

Lemma C1_witness :
  call0 ∈ calls_of (launch linux req0) st0 ∧ env_live req0 st0 ∧
  heap (launch linux req0 st0).2 !! os_environ = heap st0 !! os_environ ∧
  dict_at (heap (launch linux req0 st0).2) 1 !! "LANG" = dict_at (heap st0) 1 !! "LANG" ∧
  sc_kwargs call0 !! "env" = Some (VDict 1) ∧
  heap (launch linux req0 st0).2 !! 1%nat =
    Some (<["JPY_PARENT_PID" := "4242"]> (dict_at (heap st0) 1)).
Proof.
  split; [exact call0_made|]. split; [exact req0_live|].
  destruct (C1_only_the_caller_env_is_written linux req0 st0 (launch linux req0)
              (or_introl eq_refl)) as (H1 & H2 & H3).
  split; [apply H1; [vm_compute; lia|discriminate]|].
  split.
  - destruct (H2 1%nat eq_refl) as (Hk & _). apply Hk.
    unfold injected_keys. set_solver.
  - destruct (H3 call0 call0_made req0_live) as (ev & hd & _ & Ha & _ & Hb).
    split; [exact Ha|exact Hb].
Defined.

(** ** C8: tilde expansion of the command *)

Lemma startswith_char (a c : ascii) (s : string) :
  startswith (String c s) (String a "") = Ascii.eqb a c.
Proof.
  unfold startswith.
  change (String.prefix (String a "") (String c s))
    with (if ascii_dec a c then String.prefix "" s else false).
  destruct (ascii_dec a c) as [->|Hne].
  - rewrite Ascii.eqb_refl. by destruct s.
  - symmetry. by apply Ascii.eqb_neq.
Qed.

Section Expanduser.
Context (pw_dir : option string) (getpwnam : string → exn + option string).
Context (environ : gmap string string).

Lemma split_at_sep_tail tail :
  is_tail tail → split_at_sep tail = ("", tail).
Proof.
  intros [->|Ht]; [done|].
  destruct tail as [|c tail']; [done|].
  rewrite startswith_char, Ascii.eqb_sym in Ht.
  cbn [split_at_sep]. by rewrite Ht.
Qed.

Lemma split_at_sep_name name tail :
  no_sep name = true → is_tail tail →
  split_at_sep (name +:+ tail) = (name, tail).
Proof.
  intros Hn Ht. induction name as [|c name IH].
  - by apply split_at_sep_tail.
  - cbn [no_sep] in Hn. apply andb_prop in Hn as [Hc Hn].
    apply negb_true_iff in Hc.
    change (String c name +:+ tail) with (String c (name +:+ tail)).
    cbn [split_at_sep]. by rewrite Hc, (IH Hn).
Qed.

(** A path that does not start with [~] is returned as it is. *)
Lemma expanduser_no_tilde path :
  startswith path "~" = false →
  posix_expanduser pw_dir getpwnam environ path = inr path.
Proof. intros Hs. unfold posix_expanduser. by rewrite Hs. Qed.

Lemma tilde_starts rest : startswith ("~" +:+ rest) "~" = true.
Proof.
  change ("~" +:+ rest) with (String "~" rest).
  by rewrite startswith_char, Ascii.eqb_refl.
Qed.

(** [~] and [~/...] expand to [$HOME]. *)
Lemma expanduser_home tail home :
  is_tail tail → environ !! "HOME" = Some home →
  posix_expanduser pw_dir getpwnam environ ("~" +:+ tail) = inr (join_home home tail).
Proof.
  intros Ht Hh. unfold posix_expanduser. rewrite tilde_starts.
  change (from_1 ("~" +:+ tail)) with tail.
  rewrite (split_at_sep_tail tail Ht). cbn. by rewrite Hh.
Qed.

(** [~name] and [~name/...] expand to the home of [name], stay as they are
    when there is no such user, and raise what the lookup raises. *)
Lemma expanduser_name name tail :
  name ≠ "" → no_sep name = true → is_tail tail →
  posix_expanduser pw_dir getpwnam environ ("~" +:+ (name +:+ tail)) =
  match getpwnam name with
  | inl e => inl e
  | inr None => inr ("~" +:+ (name +:+ tail))
  | inr (Some userhome) => inr (join_home userhome tail)
  end.
Proof.
  intros Hne Hn Ht. unfold posix_expanduser. rewrite tilde_starts.
  change (from_1 ("~" +:+ (name +:+ tail))) with (name +:+ tail).
  rewrite (split_at_sep_name name tail Hn Ht).
  destruct name as [|c name]; [done|].
  change (String.eqb (String c name) "") with false. cbn [negb].
  by destruct (getpwnam _) as [?|[?|]].
Qed.
End Expanduser.

(** Where [list(map(f, l))] returns, every element is the value of [f] on
    the element at the same place. *)
Lemma list_map_raising_inr {A B} (f : A → exn + B) (l : list A) (l' : list B) :
  list_map_raising f l = inr l' →
  length l' = length l ∧
  ∀ i x, l !! i = Some x → ∃ y, l' !! i = Some y ∧ f x = inr y.
Proof.
  revert l'. induction l as [|a l IH]; intros l' Hl; cbn in Hl.
  - injection Hl as <-. split; [done|]. intros i x Hx. by destruct i.
  - destruct (f a) as [e|b] eqn:Hfa; [done|].
    destruct (list_map_raising f l) as [e|bs]; [done|].
    injection Hl as <-. destruct (IH bs eq_refl) as [Hlen Hel].
    split; [cbn; by rewrite Hlen|].
    intros [|i] x Hx; cbn in *.
    + injection Hx as <-. eauto.
    + by apply Hel.
Qed.

(** C8, as stated, fails: the invoking user's home is [/home/u]; the
    element [~bob/x] begins with [~] and reaches the primitive as
    [/home/bob/x], under another user's home, and the element [~zed/y]
    begins with [~] and reaches the primitive unexpanded, in both
    launchers. *)
Lemma C8_tilde_is_not_always_the_invoking_user :
  dict_at (heap st0) os_environ !! "HOME" = Some "/home/u" ∧
  map sc_cmd (calls_of (launch linux req_tilde) st0) =
    [["/home/bob/x"; "~zed/y"; "/home/u/bin/run"; "--flag"]] ∧
  map sc_cmd (calls_of (async_launch linux req_tilde) st0) =
    [["/home/bob/x"; "~zed/y"; "/home/u/bin/run"; "--flag"]] ∧
  startswith "~bob/x" "~" = true ∧ startswith "/home/bob/x" "/home/u" = false ∧
  startswith "~zed/y" "~" = true ∧ startswith "~zed/y" "/home/u" = false.
Proof. split_and!; vm_compute; reflexivity. Qed.

(** C8, amended.  In both launchers, when the primitive is called, the
    command it receives has as many elements as the caller's, and each is
    the value [os.path.expanduser] returned for the element at the same
    place.  On a host where that is the POSIX function: an element that
    does not begin with [~] is unchanged; [~] and [~/...], when [HOME] is
    set, have the [~] replaced by [$HOME] without its trailing slashes, the
    invoking user's home; [~name] and [~name/...] have [~name] replaced by
    the home of user [name], and are unchanged when there is no such
    user. *)
Theorem C8_cmd_goes_through_expanduser h r s (m : M (option nat)) c :
  m = launch h r ∨ m = async_launch h r →
  c ∈ calls_of m s →
  let environ := dict_at (sc_heap c) os_environ in
  length (sc_cmd c) = length (r_cmd r) ∧
  ∀ i x, r_cmd r !! i = Some x →
    ∃ y, sc_cmd c !! i = Some y ∧
      expanduser h environ x = inr y ∧
      ∀ pw_dir getpwnam,
        expanduser h = posix_expanduser pw_dir getpwnam →
        (startswith x "~" = false → y = x) ∧
        (∀ tail home, x = "~" +:+ tail → is_tail tail →
           environ !! "HOME" = Some home → y = join_home home tail) ∧
        (∀ name tail, x = "~" +:+ (name +:+ tail) →
           name ≠ "" → no_sep name = true → is_tail tail →
           (∀ userhome, getpwnam name = inr (Some userhome) →
                        y = join_home userhome tail) ∧
           (getpwnam name = inr None → y = x)).
Proof.
  intros [kind ->]%either_body Hc environ.
  apply body_call_inv in Hc as (kwargs & ie & s1 & cmd' & Hp & Hx & ->).
  subst environ. cbn [the_call sc_cmd sc_heap].
  destruct (list_map_raising_inr _ _ _ Hx) as [Hlen Hel].
  split; [done|].
  intros i x Hix. destruct (Hel i x Hix) as (y & Hy & Hfx).
  exists y. split_and!; try done.
  intros pw_dir getpwnam Hposix. rewrite Hposix in Hfx.
  split_and!.
  - intros Hs. rewrite expanduser_no_tilde in Hfx by done. by injection Hfx.
  - intros tail home -> Ht Hh.
    rewrite (expanduser_home _ _ _ tail home Ht Hh) in Hfx. by injection Hfx.
  - intros name tail -> Hne Hn Ht.
    rewrite (expanduser_name _ _ _ name tail Hne Hn Ht) in Hfx.
    split.
    + intros userhome Hg. rewrite Hg in Hfx. by injection Hfx.
    + intros Hg. rewrite Hg in Hfx. by injection Hfx.
Qed.

Lemma call_tilde_made : call_tilde ∈ calls_of (launch linux req_tilde) st0.
Proof. vm_compute. apply list_elem_of_here. Defined.

Lemma C8_witness :
  call_tilde ∈ calls_of (launch linux req_tilde) st0 ∧
  length (sc_cmd call_tilde) = length (r_cmd req_tilde) ∧
  ∃ y, sc_cmd call_tilde !! 2%nat = Some y ∧ y = join_home "/home/u" "/bin/run".
Proof.
  split; [exact call_tilde_made|].
  destruct (C8_cmd_goes_through_expanduser linux req_tilde st0
              (launch linux req_tilde) call_tilde (or_introl eq_refl) call_tilde_made)
    as [H1 H2].
  split; [exact H1|].
  destruct (H2 2%nat "~/bin/run" eq_refl) as (y & Hy & _ & Hposix).
  destruct (Hposix (Some "/home/u") passwd eq_refl) as (_ & Hhome & _).
  exists y. split; [exact Hy|].
  apply (Hhome "/bin/run" "/home/u" eq_refl); [right|]; vm_compute; reflexivity.
Defined.

(** ** C2: the diagnostic of a failed spawn *)

Section Diagnostic.
Context (h : host).

(** With a caller-supplied [env], an [Exception] from the primitive and a
    working logger, exactly one message is logged: the expanded command,
    the [PATH] of the child environment or [os.defpath] when it has none,
    and the keyword arguments without [env]. *)
Lemma diagnostic_with_env r s (m : M (option nat)) c exc l :
  m = launch h r ∨ m = async_launch h r →
  c ∈ calls_of m s →
  call_fault h c = Some exc → exn_is_Exception exc = true →
  r_env r = Some l →
  let msg := LogMsg (sc_cmd c)
               (default (defpath h) (dict_at (sc_heap c) l !! "PATH"))
               (delete "env" (sc_kwargs c)) in
  logger_fault h msg = None →
  logged (m s).2 = logged s ++ [msg] ∧ m_kwargs msg !! "env" = None.
Proof.
  intros [kind ->]%either_body Hc Hf He Hl msg Hlog. subst msg.
  apply body_call_inv in Hc as (kwargs & ie & s1 & cmd' & Hp & Hx & ->).
  destruct (body_fault h kind r s kwargs ie s1 cmd' exc Hp Hx Hf) as (_ & _ & _ & _ & -> & _).
  destruct (prepare_frame h r s) as (_ & Hlg & _). rewrite Hp in Hlg. cbn in Hlg.
  rewrite He, handle_logged, Hl, without_env_delete. cbn in *.
  rewrite Hlog, Hlg. split; [done|]. apply lookup_delete_eq.
Qed.

(** Without a caller-supplied [env] the handler receives [None]:
    [env.get] raises inside the [try], the logger is never reached, and the
    [finally] clause raises the original exception. *)
Lemma no_diagnostic_without_env r s (m : M (option nat)) c exc :
  m = launch h r ∨ m = async_launch h r →
  c ∈ calls_of m s →
  call_fault h c = Some exc →
  r_env r = None →
  (m s).1 = Raise exc ∧ logged (m s).2 = logged s.
Proof.
  intros [kind ->]%either_body Hc Hf Hn.
  apply body_call_inv in Hc as (kwargs & ie & s1 & cmd' & Hp & Hx & ->).
  destruct (body_fault h kind r s kwargs ie s1 cmd' exc Hp Hx Hf) as (-> & _ & _ & _ & -> & _).
  destruct (prepare_frame h r s) as (_ & Hlg & _). rewrite Hp in Hlg. cbn in Hlg.
  split; [done|]. rewrite handle_logged, Hn. by destruct (exn_is_Exception exc).
Qed.
End Diagnostic.

(** C2, on the code: for the default call [launch_kernel(cmd)] with a
    missing executable, the primitive is called once and raises; the launch
    raises that exception and the logger receives no message at all. *)
Theorem C2_default_env_logs_nothing :
  r_env req_missing = None ∧
  map sc_cmd (calls_of (launch linux_enoent req_missing) st0) = [["/does/not/exist"]] ∧
  (launch linux_enoent req_missing st0).1 = Raise ENOENT ∧
  logged (launch linux_enoent req_missing st0).2 = [] ∧
  (async_launch linux_enoent req_missing st0).1 = Raise ENOENT ∧
  logged (async_launch linux_enoent req_missing st0).2 = [].
Proof. split_and!; vm_compute; reflexivity. Qed.

(** The same call with an explicit [env] that has no [PATH]: one message,
    with the command, [os.defpath] and no [env] key. *)
Example diagnostic_with_explicit_env :
  let r := Request ["/does/not/exist"] VNone VNone VNone (Some 1%nat) false VNone ∅ eq_refl in
  (launch linux_enoent r st0).1 = Raise ENOENT ∧
  map (λ msg, (m_cmd msg, m_path msg, m_kwargs msg !! "env"))
      (logged (launch linux_enoent r st0).2) =
    [(["/does/not/exist"], "/bin:/usr/bin", None)].
Proof. split; vm_compute; reflexivity. Qed.

(** ** The model at work *)

(** The running example [launch_kernel(["~/bin/run", "--flag"], env=d)] on
    Linux: the command is expanded, stdin is a pipe that ends up closed,
    and [d] receives the parent pid. *)
Example launch_linux_req0 :
  (launch linux req0 st0).1 = Return (Some 0%nat) ∧
  spawned (launch linux req0 st0).2 = [call0] ∧
  procs (launch linux req0 st0).2 =
    [Process Popen ["/home/u/bin/run"; "--flag"] (Some StreamClosed) None] ∧
  logged (launch linux req0 st0).2 = [].
Proof. split_and!; vm_compute; reflexivity. Qed.

(** An independent launch under [pythonw.exe]: stdout goes to the opened
    null device, the caller's stderr is kept, and the creation flags are
    [CREATE_NEW_PROCESS_GROUP | CREATE_NO_WINDOW]. *)
Example launch_pythonw_independent :
  let r := Request ["kernel"] VNone VNone (VInt 3) None true (VStr "C:\w") ∅ eq_refl in
  map (λ c, (sc_kwargs c !! "stdout", sc_kwargs c !! "stderr",
             sc_kwargs c !! "creationflags", sc_kwargs c !! "close_fds",
             spawn_env c ≫= (.!! "JPY_PARENT_PID")))
      (calls_of (launch windows_pythonw r) st0) =
    [(Some (VFile 0), Some (VInt 3), Some (VInt 0x08000200), Some (VBool false), None)].
Proof. vm_compute. reflexivity. Qed.

(** * Further properties of the launcher *)

Section More.
Context (h : host).

(** A key the launcher does not set comes from the bag. *)
Lemma base_kwargs_other r s k :
  k ∉ ["stdin"; "stdout"; "stderr"; "cwd"; "env"] →
  base_kwargs h r s !! k = r_kw r !! k.
Proof.
  intros Hk. unfold base_kwargs, dict_main_args.
  apply lookup_union_r.
  rewrite !lookup_insert_ne; [apply lookup_empty|..]; intros <-; set_solver.
Qed.

(** A successful preparation opens one file under [pythonw.exe] and none
    otherwise. *)
Lemma prepare_files r s kwargs ie s' :
  prepare h r s = (Return (kwargs, ie), s') →
  files s' = if redirect_out h then S (files s) else files s.
Proof.
  unfold prepare, _prepare_process_args. rewrite (prepare_passes r). fold (redirect_out h).
  destruct r as [cmd stdin stdout stderr env ind cwd kw ok];
    cbn [r_cmd r_stdin r_stdout r_stderr r_env r_independent r_cwd r_kw].
  autounfold with monad_ops.
  destruct (redirect_out h), (open_devnull h), env, ind, (is_win32 h),
    (create_interrupt_event h); cbn; try (intros [= <- <- <-]; fail).
  all: repeat (inner_case; cbn; try (intros [= <- <- <-]; fail)).
  all: by intros [= <- <- <-].
Qed.

(** The creation flags a successful preparation leaves on win32. *)
Lemma prepare_win32_flags r s kwargs ie s' :
  is_win32 h = true →
  prepare h r s = (Return (kwargs, ie), s') →
  let given := if r_independent r then Some (VInt CREATE_NEW_PROCESS_GROUP)
               else base_kwargs h r s !! "creationflags" in
  if redirect_out h
  then ∃ z, int_of (default (VInt 0) given) = Some z ∧
            kwargs !! "creationflags" = Some (VInt (Z.lor z CREATE_NO_WINDOW))
  else kwargs !! "creationflags" = given.
Proof.
  intros Hw. unfold prepare, _prepare_process_args, base_kwargs, resolved_out,
    env_loc. rewrite (prepare_passes r). fold (redirect_out h). rewrite Hw.
  destruct r as [cmd stdin stdout stderr env ind cwd kw ok];
    cbn [r_cmd r_stdin r_stdout r_stderr r_env r_independent r_cwd r_kw].
  autounfold with monad_ops.
  destruct (redirect_out h), (open_devnull h), env, (create_interrupt_event h) as [e0|ev]; cbn;
    try (intros [= <- <- <-]; fail).
  all: rewrite cwd_again.
  all: match goal with
       | |- context [dict_main_args ?a ?b ?c ?d ?e ∪ ?kw] =>
           generalize (dict_main_args a b c d e ∪ kw); intros base
       end.
  all: match goal with
       | |- context [dict_at ?hp ?l !! ?k] =>
           destruct (dict_at hp l !! k) as [v|] eqn:Hget
       end; cbn; try (intros [= <- <- <-]; fail).
  all: destruct ind; cbn;
    [|destruct (DuplicateHandle h (GetCurrentProcess h)) as [e0|hd] eqn:Hdup; cbn;
      try (intros [= <- <- <-]; fail)].
  all: rewrite ?lookup_insert_eq; cbn.
  all: try (destruct (base !! "creationflags") as [[]|] eqn:Hb; cbn;
            try (intros [= <- <- <-]; fail)).
  all: intros [= <- <- <-]; cbn.
  all: rewrite ?lookup_insert_ne by done; rewrite ?lookup_insert_eq.
  all: try done.
  all: eexists; split; [reflexivity|]; done.
Qed.
End More.

(** ** X1: stdout and stderr *)

(** The state a launch leaves has the files preparation left. *)
Lemma body_files h kind r s kwargs ie s1 :
  prepare h r s = (Return (kwargs, ie), s1) →
  files (launch_body h kind r s).2 = files s1.
Proof.
  intros Hp.
  destruct (expanded_cmd h r s1) as [e|cmd'] eqn:Hx.
  - by destruct (body_expand_fault h kind r s kwargs ie s1 e Hp Hx)
      as (_ & _ & _ & _ & _ & ->).
  - destruct (call_fault h (the_call kind cmd' kwargs s1)) as [e|] eqn:Hf.
    + by destruct (body_fault h kind r s kwargs ie s1 cmd' e Hp Hx Hf)
        as (_ & _ & _ & _ & _ & ->).
    + by destruct (body_ok h kind r s kwargs ie s1 cmd' Hp Hx Hf)
        as (_ & _ & _ & _ & _ & ->).
Qed.

(** X1.  In both launchers, when the running executable is not
    [pythonw.exe] the primitive receives stdout and stderr exactly as the
    caller gave them, [None] included, and the launcher opens no file; when
    it is [pythonw.exe] the launcher opens exactly one file, the null
    device, hands that one file object to the primitive for each of stdout
    and stderr the caller left unset, and passes a stream the caller did
    give unchanged. *)
Theorem X1_output_streams h r s (m : M (option nat)) c :
  m = launch h r ∨ m = async_launch h r →
  c ∈ calls_of m s →
  (redirect_out h = false →
     sc_kwargs c !! "stdout" = Some (r_stdout r) ∧
     sc_kwargs c !! "stderr" = Some (r_stderr r) ∧
     files (m s).2 = files s) ∧
  (redirect_out h = true →
     files (m s).2 = S (files s) ∧
     sc_kwargs c !! "stdout" =
       Some (if is_None (r_stdout r) then VFile (files s) else r_stdout r) ∧
     sc_kwargs c !! "stderr" =
       Some (if is_None (r_stderr r) then VFile (files s) else r_stderr r)).
Proof.
  intros [kind ->]%either_body Hc.
  apply body_call_inv in Hc as (kwargs & ie & s1 & cmd' & Hp & Hx & ->). cbn [the_call sc_kwargs].
  rewrite (body_files h kind r s kwargs ie s1 Hp), (prepare_files h r s kwargs ie s1 Hp).
  rewrite (prepare_kwargs h r s kwargs ie s1 "stdout" Hp ltac:(set_solver)).
  rewrite (prepare_kwargs h r s kwargs ie s1 "stderr" Hp ltac:(set_solver)).
  destruct (base_kwargs_main h r s) as (_ & -> & -> & _).
  unfold resolved_out.
  split; intros ->; cbn; done.
Qed.

Lemma call_pythonw_made :
  call_pythonw ∈ calls_of (launch windows_pythonw req_pythonw) st0.
Proof. vm_compute. apply list_elem_of_here. Defined.

Lemma X1_witness :
  call_pythonw ∈ calls_of (launch windows_pythonw req_pythonw) st0 ∧
  redirect_out windows_pythonw = true ∧
  files (launch windows_pythonw req_pythonw st0).2 = 1%nat ∧
  sc_kwargs call_pythonw !! "stdout" = Some (VFile 0) ∧
  sc_kwargs call_pythonw !! "stderr" = Some (VInt 3).
Proof.
  split; [exact call_pythonw_made|]. split; [reflexivity|].
  destruct (X1_output_streams windows_pythonw req_pythonw st0
              (launch windows_pythonw req_pythonw) call_pythonw
              (or_introl eq_refl) call_pythonw_made) as [_ H].
  exact (H eq_refl).
Defined.

(** ** X2: the creation flags on win32 *)

(** X2.  On win32, in both launchers: for an independent request the
    launcher replaces whatever [creationflags] the bag holds by
    [CREATE_NEW_PROCESS_GROUP]; otherwise it keeps the bag's value, or the
    absence of one.  Under [pythonw.exe] it then ors [CREATE_NO_WINDOW]
    into that value (into 0 when there is none): the primitive receives an
    integer in which bit 27 is set and every bit of the previous flags is
    still set. *)
Theorem X2_win32_creationflags h r s (m : M (option nat)) c :
  is_win32 h = true →
  m = launch h r ∨ m = async_launch h r →
  c ∈ calls_of m s →
  let given := if r_independent r then Some (VInt CREATE_NEW_PROCESS_GROUP)
               else r_kw r !! "creationflags" in
  (redirect_out h = false → sc_kwargs c !! "creationflags" = given) ∧
  (redirect_out h = true →
     ∃ z, int_of (default (VInt 0) given) = Some z ∧
          sc_kwargs c !! "creationflags" = Some (VInt (Z.lor z CREATE_NO_WINDOW)) ∧
          Z.testbit (Z.lor z CREATE_NO_WINDOW) 27 = true ∧
          ∀ n, Z.testbit z n = true → Z.testbit (Z.lor z CREATE_NO_WINDOW) n = true).
Proof.
  intros Hw [kind ->]%either_body Hc given.
  apply body_call_inv in Hc as (kwargs & ie & s1 & cmd' & Hp & Hx & ->). cbn [the_call sc_kwargs].
  pose proof (prepare_win32_flags h r s kwargs ie s1 Hw Hp) as Hfl. cbn zeta in Hfl.
  rewrite (base_kwargs_other h r s "creationflags") in Hfl by set_solver.
  fold given in Hfl.
  split; intros Hr; rewrite Hr in Hfl; [done|].
  destruct Hfl as (z & Hz & Hk). exists z. split_and!; try done.
  - rewrite Z.lor_spec. apply orb_true_r.
  - intros n Hn. rewrite Z.lor_spec, Hn. done.
Qed.

Lemma X2_witness :
  is_win32 windows_pythonw = true ∧
  call_pythonw ∈ calls_of (launch windows_pythonw req_pythonw) st0 ∧
  redirect_out windows_pythonw = true ∧
  r_kw req_pythonw !! "creationflags" = Some (VInt 4) ∧
  ∃ z, int_of (VInt 4) = Some z ∧
       sc_kwargs call_pythonw !! "creationflags" =
         Some (VInt (Z.lor z CREATE_NO_WINDOW)).
Proof.
  split; [reflexivity|]. split; [exact call_pythonw_made|].
  split; [reflexivity|]. split; [reflexivity|].
  destruct (X2_win32_creationflags windows_pythonw req_pythonw st0
              (launch windows_pythonw req_pythonw) call_pythonw
              eq_refl (or_introl eq_refl) call_pythonw_made) as [_ H].
  destruct (H eq_refl) as (z & Hz & Hk & _).
  exists z. split; [exact Hz|exact Hk].
Defined.

(** ** X3: what is forwarded from the bag *)

(** X3.  In both launchers every entry of the bag whose name the launcher
    does not set itself reaches the primitive unchanged, and no name that is
    neither in the bag nor set by the launcher is ever passed: on POSIX the
    launcher sets the five explicit names and [start_new_session]; on win32
    the five explicit names, [close_fds], which is always [False] there
    whatever the bag says, and [creationflags]. *)
Theorem X3_bag_is_forwarded h r s (m : M (option nat)) c k :
  m = launch h r ∨ m = async_launch h r →
  c ∈ calls_of m s →
  (is_win32 h = false → k ∉ posix_keys → sc_kwargs c !! k = r_kw r !! k) ∧
  (is_win32 h = true →
     sc_kwargs c !! "close_fds" = Some (VBool false) ∧
     (k ∉ win32_keys → sc_kwargs c !! k = r_kw r !! k)).
Proof.
  intros [kind ->]%either_body Hc.
  apply body_call_inv in Hc as (kwargs & ie & s1 & cmd' & Hp & Hx & ->). cbn [the_call sc_kwargs].
  split; intros Hw.
  - intros Hk. apply prepare_posix in Hp as (_ & -> & _); [|done].
    rewrite lookup_insert_ne by (intros <-; apply Hk; set_solver).
    apply base_kwargs_other. intros Hin. apply Hk. set_solver.
  - destruct (prepare_win32 h r s kwargs ie s1 Hw Hp)
      as (ev & _ & _ & _ & _ & Hcl & Hoth & _).
    split; [done|]. intros Hk.
    rewrite Hoth; [|intros ->; apply Hk; set_solver..].
    apply base_kwargs_other. intros Hin. apply Hk. set_solver.
Qed.

Lemma X3_witness :
  call_pythonw ∈ calls_of (launch windows_pythonw req_pythonw) st0 ∧
  is_win32 windows_pythonw = true ∧
  sc_kwargs call_pythonw !! "close_fds" = Some (VBool false) ∧
  sc_kwargs call_pythonw !! "bufsize" = Some (VInt 0) ∧
  sc_kwargs call_pythonw !! "start_new_session" = None.
Proof.
  split; [exact call_pythonw_made|]. split; [reflexivity|].
  destruct (X3_bag_is_forwarded windows_pythonw req_pythonw st0
              (launch windows_pythonw req_pythonw) call_pythonw "bufsize"
              (or_introl eq_refl) call_pythonw_made) as [_ H1].
  destruct (X3_bag_is_forwarded windows_pythonw req_pythonw st0
              (launch windows_pythonw req_pythonw) call_pythonw "start_new_session"
              (or_introl eq_refl) call_pythonw_made) as [_ H2].
  destruct (H1 eq_refl) as [Hc Hb]. destruct (H2 eq_refl) as [_ Hs].
  split; [exact Hc|]. split.
  - apply Hb. unfold win32_keys. set_solver.
  - apply Hs. unfold win32_keys. set_solver.
Defined.

(** ** X4, X5, X6: a preparation that raises *)

Lemma getitem_after_set_live (hp : list (gmap string string)) l k v :
  (l < length hp)%nat → dict_at (alter (insert k v) l hp) l !! k = Some v.
Proof.
  intros [d Hd]%lookup_lt_is_Some. unfold dict_at.
  rewrite list_lookup_alter_eq, Hd. cbn. apply lookup_insert_eq.
Qed.

Lemma dict_at_alter (hp : list (gmap string string)) l f :
  (l < length hp)%nat → dict_at (alter f l hp) l = f (dict_at hp l).
Proof.
  intros [d Hd]%lookup_lt_is_Some. unfold dict_at.
  by rewrite list_lookup_alter_eq, Hd.
Qed.

(** Whatever raises in preparation ends the launch there. *)
Lemma body_prepare_raises_frame h kind r s e s1 :
  prepare h r s = (Raise e, s1) →
  (launch_body h kind r s).1 = Raise e ∧
  calls_of (launch_body h kind r) s = [] ∧
  logged (launch_body h kind r s).2 = logged s ∧
  procs (launch_body h kind r s).2 = procs s ∧
  heap (launch_body h kind r s).2 = heap s1.
Proof.
  intros Hp. rewrite body_calls, (body_prepare_raises h kind r s e s1 Hp), Hp.
  destruct (prepare_frame h r s) as (Hpr & Hlg & _). rewrite Hp in Hpr, Hlg.
  cbn in *. done.
Qed.

(** X4.  On win32, in both launchers, when [create_interrupt_event] raises
    (the null device having been opened where [pythonw.exe] needs it), the
    launch raises that exception: no primitive is called, nothing is
    logged, no process object is created, and no dictionary that existed
    before the call, the caller's [env] included, is written to. *)
Theorem X4_interrupt_event_failure_is_fatal h r s (m : M (option nat)) e :
  is_win32 h = true →
  (redirect_out h = true → open_devnull h = None) →
  create_interrupt_event h = inl e →
  m = launch h r ∨ m = async_launch h r →
  (m s).1 = Raise e ∧
  calls_of m s = [] ∧
  logged (m s).2 = logged s ∧
  procs (m s).2 = procs s ∧
  ∀ l, (l < length (heap s))%nat → heap (m s).2 !! l = heap s !! l.
Proof.
  intros Hw Hopen Hcr [kind ->]%either_body.
  assert (∃ s1, prepare h r s = (Raise e, s1) ∧
                ∀ l, (l < length (heap s))%nat → heap s1 !! l = heap s !! l)
    as (s1 & Hp & Hh).
  { unfold prepare, _prepare_process_args. rewrite (prepare_passes r). fold (redirect_out h). rewrite Hw, Hcr.
    autounfold with monad_ops.
    destruct (redirect_out h); [rewrite (Hopen eq_refl)|];
      destruct (r_env r); cbn; eexists; (split; [reflexivity|]); cbn; try done.
    all: intros l Hl; by apply lookup_app_l. }
  destruct (body_prepare_raises_frame h kind r s e s1 Hp) as (-> & -> & -> & -> & ->).
  done.
Qed.

(** X5.  On win32, in both launchers, when a request that is not
    independent reaches [DuplicateHandle] and that call raises, the launch
    raises that exception and no primitive is called, but the caller's
    [env] has already been written to: it holds the two interrupt-event
    keys, and is otherwise as it was. *)
Theorem X5_handle_failure_leaves_env_written h r s (m : M (option nat)) ev e l :
  is_win32 h = true →
  (redirect_out h = true → open_devnull h = None) →
  create_interrupt_event h = inr ev →
  r_independent r = false →
  DuplicateHandle h (GetCurrentProcess h) = inl e →
  r_env r = Some l → (l < length (heap s))%nat →
  m = launch h r ∨ m = async_launch h r →
  (m s).1 = Raise e ∧
  calls_of m s = [] ∧
  dict_at (heap (m s).2) l = with_events ev (dict_at (heap s) l).
Proof.
  intros Hw Hopen Hcr Hi Hdup Hl Hlt [kind ->]%either_body.
  assert (∃ s1, prepare h r s = (Raise e, s1) ∧
                dict_at (heap s1) l = with_events ev (dict_at (heap s) l))
    as (s1 & Hp & Hh).
  { unfold prepare, _prepare_process_args. rewrite (prepare_passes r). fold (redirect_out h).
    rewrite Hw, Hcr, Hi, Hl. autounfold with monad_ops.
    destruct (redirect_out h); [rewrite (Hopen eq_refl)|]; cbn.
    all: rewrite getitem_after_set_live by done; cbn.
    all: rewrite Hdup; cbn.
    all: eexists; (split; [reflexivity|]); cbn.
    all: rewrite !dict_at_alter by (rewrite ?length_alter; done); done. }
  destruct (body_prepare_raises_frame h kind r s e s1 Hp) as (-> & -> & _ & _ & ->).
  done.
Qed.

(** X6.  On win32 under [pythonw.exe], in both launchers, when a request
    that is not independent carries a [creationflags] in its bag that is
    neither an [int] nor a [bool], the [|] with [CREATE_NO_WINDOW] raises
    [TypeError] once the handles have been created: the launch raises it
    and no primitive is called. *)
Theorem X6_non_integer_creationflags h r s (m : M (option nat)) ev hd v :
  is_win32 h = true →
  redirect_out h = true → open_devnull h = None →
  create_interrupt_event h = inr ev →
  r_independent r = false →
  DuplicateHandle h (GetCurrentProcess h) = inr hd →
  env_live r s →
  r_kw r !! "creationflags" = Some v → int_of v = None →
  m = launch h r ∨ m = async_launch h r →
  ∃ e, (m s).1 = Raise e ∧ exn_class e = "TypeError" ∧
       calls_of m s = [] ∧ procs (m s).2 = procs s.
Proof.
  intros Hw Hr Hopen Hcr Hi Hdup Hlive Hkw Hv [kind ->]%either_body.
  assert (∃ e s1, prepare h r s = (Raise e, s1) ∧ exn_class e = "TypeError")
    as (e & s1 & Hp & He).
  { unfold prepare, _prepare_process_args. rewrite (prepare_passes r). fold (redirect_out h).
    rewrite Hw, Hr, Hcr, Hi. autounfold with monad_ops. rewrite Hopen.
    unfold env_live in Hlive.
    destruct (r_env r) as [l|] eqn:Hl; cbn.
    all: rewrite getitem_after_set_live
           by (rewrite ?length_app; cbn; first [by apply Hlive | lia]); cbn.
    all: rewrite Hdup; cbn.
    all: rewrite cwd_again.
    all: rewrite lookup_union_r by (unfold dict_main_args; by simplify_map_eq).
    all: rewrite Hkw; cbn.
    all: destruct v; try discriminate Hv; cbn; eauto. }
  destruct (body_prepare_raises_frame h kind r s e s1 Hp) as (-> & -> & _ & -> & _).
  by exists e.
Qed.

Lemma X4_witness :
  is_win32 windows_no_event = true ∧
  create_interrupt_event windows_no_event = inl EWIN ∧
  (launch windows_no_event req0 st0).1 = Raise EWIN ∧
  calls_of (launch windows_no_event req0) st0 = [] ∧
  heap (launch windows_no_event req0 st0).2 !! 1%nat = heap st0 !! 1%nat.
Proof.
  split; [reflexivity|]. split; [reflexivity|].
  destruct (X4_interrupt_event_failure_is_fatal windows_no_event req0 st0
              (launch windows_no_event req0) EWIN eq_refl
              (λ H, eq_refl) eq_refl (or_introl eq_refl))
    as (H1 & H2 & _ & _ & H5).
  split; [exact H1|]. split; [exact H2|].
  apply H5. vm_compute. lia.
Defined.

Lemma X5_witness :
  is_win32 windows_no_dup = true ∧
  DuplicateHandle windows_no_dup (GetCurrentProcess windows_no_dup) = inl EWIN ∧
  r_env req0 = Some 1%nat ∧
  (launch windows_no_dup req0 st0).1 = Raise EWIN ∧
  calls_of (launch windows_no_dup req0) st0 = [] ∧
  dict_at (heap (launch windows_no_dup req0 st0).2) 1 =
    with_events 700 (dict_at (heap st0) 1).
Proof.
  split; [reflexivity|]. split; [reflexivity|]. split; [reflexivity|].
  apply (X5_handle_failure_leaves_env_written windows_no_dup req0 st0
           (launch windows_no_dup req0) 700 EWIN 1%nat eq_refl
           (λ H, eq_refl) eq_refl eq_refl eq_refl eq_refl).
  - vm_compute. lia.
  - left. reflexivity.
Defined.

Lemma req_flags_none_live : env_live req_flags_none st0.
Proof. intros l [= <-]. vm_compute. lia. Defined.

Lemma X6_witness :
  is_win32 windows_pythonw = true ∧ redirect_out windows_pythonw = true ∧
  r_kw req_flags_none !! "creationflags" = Some VNone ∧ int_of VNone = None ∧
  ∃ e, (launch windows_pythonw req_flags_none st0).1 = Raise e ∧
       exn_class e = "TypeError" ∧
       calls_of (launch windows_pythonw req_flags_none) st0 = [] ∧
       procs (launch windows_pythonw req_flags_none st0).2 = procs st0.
Proof.
  split; [reflexivity|]. split; [reflexivity|].
  split; [reflexivity|]. split; [reflexivity|].
  exact (X6_non_integer_creationflags windows_pythonw req_flags_none st0
           (launch windows_pythonw req_flags_none) 700 812 VNone
           eq_refl eq_refl eq_refl eq_refl eq_refl eq_refl
           req_flags_none_live eq_refl eq_refl (or_introl eq_refl)).
Defined.

(** ** X7, X8: what is logged *)

(** X7.  In both launchers, when the primitive raises an [Exception], the
    caller gave an [env] and the logger does not raise, exactly one message
    is logged.  It carries the command as it was handed to the primitive,
    the [PATH] the caller's [env] held before the launch, or [os.defpath]
    when it held none, and every keyword argument the primitive received
    except [env]. *)
Theorem X7_failure_diagnostic h r s (m : M (option nat)) c exc l :
  m = launch h r ∨ m = async_launch h r →
  c ∈ calls_of m s →
  call_fault h c = Some exc → exn_is_Exception exc = true →
  r_env r = Some l →
  let msg := LogMsg (sc_cmd c)
               (default (defpath h) (dict_at (heap s) l !! "PATH"))
               (delete "env" (sc_kwargs c)) in
  logger_fault h msg = None →
  logged (m s).2 = logged s ++ [msg] ∧
  m_kwargs msg !! "env" = None ∧
  ∀ k, k ≠ "env" → m_kwargs msg !! k = sc_kwargs c !! k.
Proof.
  intros Hm Hc Hf He Hl msg Hlog.
  assert (dict_at (sc_heap c) l !! "PATH" = dict_at (heap s) l !! "PATH") as Hpath.
  { destruct (either_body h r m Hm) as [kind ->].
    apply body_call_inv in Hc as (kwargs & ie & s1 & cmd' & Hp & Hx & ->). cbn [the_call sc_heap].
    destruct (prepare_heap_frame h r s) as [_ H2]. rewrite Hp in H2. cbn in H2.
    apply H2; [done|]. unfold injected_keys. set_solver. }
  subst msg. rewrite <- Hpath in *.
  destruct (diagnostic_with_env h r s m c exc l Hm Hc Hf He Hl Hlog) as [H1 H2].
  split_and!; try done.
  intros k Hk. cbn. by apply lookup_delete_ne.
Qed.

Lemma call0_made_enoent : call0 ∈ calls_of (launch linux_enoent req0) st0.
Proof. vm_compute. apply list_elem_of_here. Defined.

Lemma X7_witness :
  call0 ∈ calls_of (launch linux_enoent req0) st0 ∧
  call_fault linux_enoent call0 = Some ENOENT ∧
  logged (launch linux_enoent req0 st0).2 =
    [LogMsg ["/home/u/bin/run"; "--flag"] "/bin:/usr/bin" (delete "env" (sc_kwargs call0))].
Proof.
  split; [exact call0_made_enoent|]. split; [reflexivity|].
  exact (proj1 (X7_failure_diagnostic linux_enoent req0 st0 (launch linux_enoent req0)
                  call0 ENOENT 1%nat (or_introl eq_refl) call0_made_enoent
                  eq_refl eq_refl eq_refl eq_refl)).
Defined.

(** Where [list(map(f, l))] raises, [f] raised that exception on an element
    of [l]. *)
Lemma list_map_raising_inl {A B} (f : A → exn + B) (l : list A) e :
  list_map_raising f l = inl e → ∃ x, x ∈ l ∧ f x = inl e.
Proof.
  induction l as [|a l IH]; cbn; [done|].
  destruct (f a) as [e'|b] eqn:Hfa.
  - intros [= <-]. exists a. split; [left|done].
  - destruct (list_map_raising f l) as [e'|bs]; [|done].
    intros [= <-]. destruct (IH eq_refl) as (x & Hx & Hfx).
    exists x. split; [by right|done].
Qed.

(** X8.  In both launchers a launch that returns logs nothing, and any
    launch logs at most one message.  One is logged only when an
    [Exception] was raised inside the [try] block, the launch raises it,
    the caller gave an [env], and the logger did not raise: either
    [os.path.expanduser] raised on an element of the command, no primitive
    was called and the message carries the command as the caller gave it;
    or the one call of the primitive raised and the message carries the
    command handed to it.  The message never holds an [env] entry. *)
Theorem X8_at_most_one_message h r s (m : M (option nat)) :
  m = launch h r ∨ m = async_launch h r →
  (∀ p, (m s).1 = Return p → logged (m s).2 = logged s) ∧
  (logged (m s).2 = logged s ∨
   ∃ msg exc l,
     logged (m s).2 = logged s ++ [msg] ∧
     (m s).1 = Raise exc ∧ exn_is_Exception exc = true ∧
     r_env r = Some l ∧ logger_fault h msg = None ∧
     m_kwargs msg !! "env" = None ∧
     ((calls_of m s = [] ∧ m_cmd msg = r_cmd r ∧
       ∃ x environ, x ∈ r_cmd r ∧ expanduser h environ x = inl exc) ∨
      (∃ c, calls_of m s = [c] ∧ call_fault h c = Some exc ∧
            m_cmd msg = sc_cmd c))).
Proof.
  intros [kind ->]%either_body.
  destruct (prepare_frame h r s) as (_ & Hlg & _).
  rewrite body_calls.
  launch_cases h kind r s; rewrite Hp in *; cbn in Hlg.
  - rewrite (body_prepare_raises h kind r s e s1 Hp). cbn. rewrite Hlg.
    split; [done|by left].
  - destruct (body_expand_fault h kind r s kwargs ie s1 e Hp Hx)
      as (Ho & _ & _ & _ & Hl & _).
    rewrite Ho, Hl, Hlg, Hx. split; [by intros p [=]|].
    destruct (exn_is_Exception e) eqn:He; [|by left].
    rewrite handle_logged, Hlg.
    destruct (r_env r) as [l|] eqn:Hl'; [|by left].
    cbn zeta. destruct (logger_fault h _) as [e'|] eqn:Hlog; [by left|].
    right. eexists _, e, l. split_and!; try done.
    + cbn. rewrite without_env_delete. apply lookup_delete_eq.
    + left. split_and!; try done.
      destruct (list_map_raising_inl _ _ _ Hx) as (x & Hin & Hfx). eauto.
  - destruct (body_fault h kind r s kwargs ie s1 cmd' e Hp Hx Hf)
      as (Ho & _ & _ & _ & Hl & _).
    rewrite Ho, Hl, Hlg, Hx. split; [by intros p [=]|].
    destruct (exn_is_Exception e) eqn:He; [|by left].
    rewrite handle_logged, Hlg.
    destruct (r_env r) as [l|] eqn:Hl'; [|by left].
    cbn zeta. destruct (logger_fault h _) as [e'|] eqn:Hlog; [by left|].
    right. eexists _, e, l. split_and!; try done.
    + cbn. rewrite without_env_delete. apply lookup_delete_eq.
    + right. eauto.
  - destruct (body_ok h kind r s kwargs ie s1 cmd' Hp Hx Hf) as (_ & _ & -> & _).
    rewrite Hlg. split; [done|by left].
Qed.

Lemma X8_witness :
  (∀ p, (launch linux req0 st0).1 = Return p →
        logged (launch linux req0 st0).2 = logged st0) ∧
  (launch linux req0 st0).1 = Return (Some 0%nat).
Proof.
  split.
  - exact (proj1 (X8_at_most_one_message linux req0 st0 (launch linux req0)
                    (or_introl eq_refl))).
  - vm_compute. reflexivity.
Defined.

(** A command whose first element is [~] followed by a NUL:
    [os.path.expanduser] raises [ValueError] inside the [try], no primitive
    is called, one message is logged with the command as given, and the
    launch raises that [ValueError]. *)
Example expanduser_fault_is_logged :
  (launch linux req_nul st0).1 = Raise (Exn true "ValueError" "embedded null byte") ∧
  calls_of (launch linux req_nul) st0 = [] ∧
  map m_cmd (logged (launch linux req_nul st0).2) = [r_cmd req_nul] ∧
  (async_launch linux req_nul st0).1 = Raise (Exn true "ValueError" "embedded null byte") ∧
  calls_of (async_launch linux req_nul) st0 = [] ∧
  map m_cmd (logged (async_launch linux req_nul st0).2) = [r_cmd req_nul].
Proof. split_and!; vm_compute; reflexivity. Qed.

(** ** X9, X10: process objects, and launching twice *)

Section Procs.
Context (h : host).

(** A launch leaves the process objects that existed before it alone. *)
Lemma body_procs_frame kind r s q :
  (q < length (procs s))%nat →
  procs (launch_body h kind r s).2 !! q = procs s !! q.
Proof.
  intros Hq. destruct (prepare_frame h r s) as (Hpr & _).
  launch_cases h kind r s; rewrite Hp in Hpr; cbn in Hpr.
  - rewrite (body_prepare_raises h kind r s e s1 Hp). cbn. by rewrite Hpr.
  - destruct (body_expand_fault h kind r s kwargs ie s1 e Hp Hx) as (_ & _ & -> & _).
    by rewrite Hpr.
  - destruct (body_fault h kind r s kwargs ie s1 cmd' e Hp Hx Hf) as (_ & _ & -> & _).
    by rewrite Hpr.
  - destruct (body_ok h kind r s kwargs ie s1 cmd' Hp Hx Hf) as (_ & _ & _ & _ & -> & _).
    rewrite Hpr. by apply lookup_app_l.
Qed.

(** The process a launch returns is the one after those that existed. *)
Lemma body_returns_new kind r s p :
  (launch_body h kind r s).1 = Return (Some p) →
  p = length (procs s) ∧
  length (procs (launch_body h kind r s).2) = S (length (procs s)).
Proof.
  intros Hr. destruct (prepare_frame h r s) as (Hpr & _).
  launch_cases h kind r s; rewrite Hp in Hpr; cbn in Hpr.
  - rewrite (body_prepare_raises h kind r s e s1 Hp) in Hr. discriminate.
  - destruct (body_expand_fault h kind r s kwargs ie s1 e Hp Hx) as (Ho & _).
    rewrite Ho in Hr. discriminate.
  - destruct (body_fault h kind r s kwargs ie s1 cmd' e Hp Hx Hf) as (Ho & _).
    rewrite Ho in Hr. discriminate.
  - destruct (body_ok h kind r s kwargs ie s1 cmd' Hp Hx Hf) as (Ho & _ & _ & _ & -> & _).
    rewrite Ho in Hr. injection Hr as <-. rewrite Hpr, length_app. cbn.
    split; [done|lia].
Qed.

(** A successful preparation resolves [env] to a live dictionary and
    creates no other. *)
Lemma prepare_heap_length r s kwargs ie s' :
  prepare h r s = (Return (kwargs, ie), s') →
  length (heap s') = length (heap_resolved r s).
Proof.
  intros Hp. destruct (is_win32 h) eqn:Hw.
  - destruct (prepare_win32 h r s kwargs ie s' Hw Hp) as (ev & _ & _ & _ & Hh & _).
    destruct (r_independent r).
    + rewrite Hh. unfold win32_events. by rewrite !length_alter.
    + destruct Hh as (hd & _ & ->). unfold win32_events. by rewrite !length_alter.
  - apply prepare_posix in Hp as (_ & _ & -> & _); [|done].
    destruct (r_independent r); [done|]. by rewrite length_alter.
Qed.
End Procs.

(** X9.  In both launchers a launch that returns a process has created
    exactly one process object and returns that new one; a launch that
    raises has created none; and in either case the process objects that
    existed before the call are left as they were. *)
Theorem X9_one_new_process h r s (m : M (option nat)) :
  m = launch h r ∨ m = async_launch h r →
  (∀ p, (m s).1 = Return (Some p) →
        p = length (procs s) ∧ length (procs (m s).2) = S (length (procs s))) ∧
  (∀ e, (m s).1 = Raise e → procs (m s).2 = procs s) ∧
  (∀ q, (q < length (procs s))%nat → procs (m s).2 !! q = procs s !! q).
Proof.
  intros [kind ->]%either_body. split_and!.
  - apply body_returns_new.
  - intros e0 Hr. destruct (prepare_frame h r s) as (Hpr & _).
    launch_cases h kind r s; rewrite Hp in Hpr; cbn in Hpr.
    + rewrite (body_prepare_raises h kind r s e s1 Hp). done.
    + by destruct (body_expand_fault h kind r s kwargs ie s1 e Hp Hx) as (_ & _ & -> & _).
    + by destruct (body_fault h kind r s kwargs ie s1 cmd' e Hp Hx Hf) as (_ & _ & -> & _).
    + destruct (body_ok h kind r s kwargs ie s1 cmd' Hp Hx Hf) as (Ho & _).
      rewrite Ho in Hr. discriminate.
  - apply body_procs_frame.
Qed.

Lemma X9_witness :
  (launch linux req0 st0).1 = Return (Some 0%nat) ∧
  0%nat = length (procs st0) ∧
  length (procs (launch linux req0 st0).2) = S (length (procs st0)).
Proof.
  split; [vm_compute; reflexivity|].
  apply (proj1 (X9_one_new_process linux req0 st0 (launch linux req0)
                  (or_introl eq_refl))).
  vm_compute. reflexivity.
Defined.

(** X10.  Two launches in a row, by either launcher, that both return: the
    two processes are different objects and the second launch leaves the
    first process as it was; when neither request gives an [env], the two
    primitives receive references to two different dictionaries, and the
    second launch does not write to the one the first child was given. *)
Theorem X10_two_launches h r1 r2 s (m1 m2 : M (option nat)) p1 p2 :
  m1 = launch h r1 ∨ m1 = async_launch h r1 →
  m2 = launch h r2 ∨ m2 = async_launch h r2 →
  (m1 s).1 = Return (Some p1) →
  (m2 (m1 s).2).1 = Return (Some p2) →
  p1 ≠ p2 ∧
  procs (m2 (m1 s).2).2 !! p1 = procs (m1 s).2 !! p1 ∧
  (r_env r1 = None → r_env r2 = None →
   ∀ c1 c2, c1 ∈ calls_of m1 s → c2 ∈ calls_of m2 (m1 s).2 →
     ∃ l1 l2, sc_kwargs c1 !! "env" = Some (VDict l1) ∧
              sc_kwargs c2 !! "env" = Some (VDict l2) ∧ l1 ≠ l2 ∧
              heap (m2 (m1 s).2).2 !! l1 = heap (m1 s).2 !! l1).
Proof.
  intros [k1 ->]%either_body [k2 ->]%either_body H1 H2.
  destruct (body_returns_new h k1 r1 s p1 H1) as [-> Hlen].
  destruct (body_returns_new h k2 r2 _ p2 H2) as [-> _].
  split_and!.
  - lia.
  - apply body_procs_frame. lia.
  - intros Hn1 Hn2 c1 c2 Hc1 Hc2.
    apply body_call_inv in Hc1 as (kw1 & ie1 & s1 & cmd1 & Hp1 & Hx1 & ->).
    apply body_call_inv in Hc2 as (kw2 & ie2 & s2 & cmd2 & Hp2 & Hx2 & ->).
    cbn [the_call sc_kwargs].
    rewrite (prepare_kwargs h r1 s kw1 ie1 s1 "env" Hp1 ltac:(set_solver)).
    rewrite (prepare_kwargs h r2 _ kw2 ie2 s2 "env" Hp2 ltac:(set_solver)).
    destruct (base_kwargs_main h r1 s) as (_ & _ & _ & _ & ->).
    destruct (base_kwargs_main h r2 (launch_body h k1 r1 s).2) as (_ & _ & _ & _ & ->).
    unfold env_loc. rewrite Hn1, Hn2.
    assert (length (heap (launch_body h k1 r1 s).2) = S (length (heap s))) as Hgrow.
    { rewrite body_heap, Hp1. cbn.
      rewrite (prepare_heap_length h r1 s kw1 ie1 s1 Hp1).
      unfold heap_resolved. rewrite Hn1, length_app. cbn. lia. }
    eexists _, _. split_and!; try done.
    + lia.
    + rewrite body_heap.
      destruct (prepare_heap_frame h r2 (launch_body h k1 r1 s).2) as [Hfr _].
      apply Hfr; [lia|]. by rewrite Hn2.
Qed.

Lemma X10_witness :
  (launch linux req_tilde st0).1 = Return (Some 0%nat) ∧
  (async_launch linux req_tilde (launch linux req_tilde st0).2).1 = Return (Some 1%nat) ∧
  0%nat ≠ 1%nat ∧
  procs (async_launch linux req_tilde (launch linux req_tilde st0).2).2 !! 0%nat =
    procs (launch linux req_tilde st0).2 !! 0%nat.
Proof.
  split; [vm_compute; reflexivity|]. split; [vm_compute; reflexivity|].
  destruct (X10_two_launches linux req_tilde req_tilde st0
              (launch linux req_tilde) (async_launch linux req_tilde) 0%nat 1%nat
              (or_introl eq_refl) (or_intror eq_refl)) as (Ha & Hb & _).
  - vm_compute. reflexivity.
  - vm_compute. reflexivity.
  - split; [exact Ha|exact Hb].
Defined.

(** ** X11, X12: the whole child environment *)

(** X11.  On POSIX, in both launchers, the environment handed to the
    primitive is the caller's mapping, or the copy of [os.environ], with
    [JPY_PARENT_PID] set to the text of [os.getpid()] unless the request is
    independent, and nothing else added, changed or removed; no interrupt
    event is attached to the returned process. *)
Theorem X11_posix_child_environment h r s (m : M (option nat)) c :
  is_win32 h = false →
  m = launch h r ∨ m = async_launch h r →
  env_live r s →
  c ∈ calls_of m s →
  spawn_env c =
    Some (if r_independent r then env_source r s
          else <["JPY_PARENT_PID" := str_int (getpid h)]> (env_source r s)) ∧
  ∀ p, (m s).1 = Return (Some p) →
       ∃ pr, procs (m s).2 !! p = Some pr ∧ p_win32_interrupt_event pr = None.
Proof.
  intros Hw [kind ->]%either_body Hlive Hc.
  apply body_call_inv in Hc as (kwargs & ie & s1 & cmd' & Hp & Hx & ->).
  pose proof (prepare_kwargs h r s kwargs ie s1 "env" Hp ltac:(set_solver)) as Henv.
  destruct (base_kwargs_main h r s) as (_ & _ & _ & _ & Henv').
  rewrite Henv' in Henv. clear Henv'.
  pose proof (resolved_lookup r s Hlive) as Hres.
  split.
  - unfold spawn_env, the_call. cbn. rewrite Henv.
    apply prepare_posix in Hp as (_ & _ & -> & _); [|done].
    destruct (r_independent r); [done|].
    by rewrite list_lookup_alter_eq, Hres.
  - intros p (kw' & ie' & s1' & cmd'' & _ & _ & _ & Hpr)%body_returns.
    rewrite Hw in Hpr. eauto.
Qed.

Lemma X11_witness :
  is_win32 linux = false ∧ env_live req0 st0 ∧
  call0 ∈ calls_of (launch linux req0) st0 ∧
  spawn_env call0 = Some (<["JPY_PARENT_PID" := "4242"]> (<["LANG" := "C"]> ∅)).
Proof.
  split; [reflexivity|]. split; [exact req0_live|]. split; [exact call0_made|].
  exact (proj1 (X11_posix_child_environment linux req0 st0 (launch linux req0) call0
                  eq_refl (or_introl eq_refl) req0_live call0_made)).
Defined.

(** X12.  On win32, in both launchers, the environment handed to the
    primitive is the caller's mapping, or the copy of [os.environ], with
    the two interrupt-event keys set to the text of the new event and, for
    a request that is not independent, [JPY_PARENT_PID] set to the text of
    the duplicated handle; for an independent request [JPY_PARENT_PID] is
    neither written nor removed. *)
Theorem X12_win32_child_environment h r s (m : M (option nat)) c :
  is_win32 h = true →
  m = launch h r ∨ m = async_launch h r →
  c ∈ calls_of m s →
  ∃ ev, create_interrupt_event h = inr ev ∧
    (r_independent r = true →
       spawn_env c = Some (with_events ev (env_source r s))) ∧
    (r_independent r = false →
       ∃ hd, DuplicateHandle h (GetCurrentProcess h) = inr hd ∧
             spawn_env c =
               Some (<["JPY_PARENT_PID" := str_int hd]>
                       (with_events ev (env_source r s)))).
Proof.
  intros Hw [kind ->]%either_body Hc.
  apply body_call_inv in Hc as (kwargs & ie & s1 & cmd' & Hp & Hx & ->).
  pose proof (prepare_kwargs h r s kwargs ie s1 "env" Hp ltac:(set_solver)) as Henv.
  destruct (base_kwargs_main h r s) as (_ & _ & _ & _ & Henv').
  rewrite Henv' in Henv. clear Henv'.
  destruct (prepare_win32 h r s kwargs ie s1 Hw Hp)
    as (ev & Hev & -> & Hlt & Hheap & _).
  assert (env_live r s) as Hlive.
  { intros l Hl. unfold env_loc, heap_resolved in Hlt. by rewrite Hl in Hlt. }
  pose proof (resolved_lookup r s Hlive) as Hres.
  exists ev. split; [done|].
  unfold spawn_env, the_call. cbn. rewrite Henv.
  split; intros Hi; rewrite Hi in Hheap.
  - rewrite Hheap. unfold win32_events.
    by rewrite !list_lookup_alter_eq, Hres.
  - destruct Hheap as (hd & Hdup & ->). exists hd. split; [done|].
    unfold win32_events. by rewrite !list_lookup_alter_eq, Hres.
Qed.

Lemma X12_witness :
  is_win32 windows = true ∧
  call_win ∈ calls_of (launch windows req0) st0 ∧
  r_independent req0 = false ∧
  ∃ hd, DuplicateHandle windows (GetCurrentProcess windows) = inr hd ∧
        spawn_env call_win =
          Some (<["JPY_PARENT_PID" := str_int hd]>
                  (with_events 700 (<["LANG" := "C"]> ∅))).
Proof.
  split; [reflexivity|]. split; [exact call_win_made|]. split; [reflexivity|].
  destruct (X12_win32_child_environment windows req0 st0 (launch windows req0)
              call_win eq_refl (or_introl eq_refl) call_win_made)
    as (ev & Hev & _ & H).
  injection Hev as <-. exact (H eq_refl).
Defined.

(** ** X13: the outcomes of a launch *)

(** X13.  In both launchers a launch never returns [None] and never fails
    in its own finalisation.  It returns a process object that exists,
    after one call of the primitive that did not raise; or it raises the
    exception of that one call; or it raises the exception
    [os.path.expanduser] raised on an element of the command, no primitive
    having been called; or it raises the exception preparation raised, no
    primitive having been called. *)
Theorem X13_outcomes_of_a_launch h r s (m : M (option nat)) :
  m = launch h r ∨ m = async_launch h r →
  match (m s).1 with
  | Return None => False
  | Return (Some p) =>
      is_Some (procs (m s).2 !! p) ∧
      ∃ c, calls_of m s = [c] ∧ call_fault h c = None
  | Raise e =>
      (calls_of m s = [] ∧ (prepare h r s).1 = Raise e) ∨
      (calls_of m s = [] ∧
       ∃ x environ, x ∈ r_cmd r ∧ expanduser h environ x = inl e) ∨
      (∃ c, calls_of m s = [c] ∧ call_fault h c = Some e)
  end.
Proof.
  intros [kind ->]%either_body. rewrite body_calls.
  launch_cases h kind r s; rewrite Hp.
  - rewrite (body_prepare_raises h kind r s e s1 Hp). cbn. by left.
  - destruct (body_expand_fault h kind r s kwargs ie s1 e Hp Hx) as (-> & _).
    rewrite Hx. right. left. split; [done|].
    destruct (list_map_raising_inl _ _ _ Hx) as (x & Hin & Hfx). eauto.
  - destruct (body_fault h kind r s kwargs ie s1 cmd' e Hp Hx Hf) as (-> & _).
    rewrite Hx. right. right. eauto.
  - destruct (body_ok h kind r s kwargs ie s1 cmd' Hp Hx Hf)
      as (Ho & _ & _ & _ & Hpr & _).
    rewrite Ho, Hpr, Hx. split; [|eauto].
    rewrite list_lookup_middle by done. eauto.
Qed.

Lemma X13_witness :
  (launch linux_enoent req0 st0).1 = Raise ENOENT ∧
  ((calls_of (launch linux_enoent req0) st0 = [] ∧
    (prepare linux_enoent req0 st0).1 = Raise ENOENT) ∨
   (calls_of (launch linux_enoent req0) st0 = [] ∧
    ∃ x environ, x ∈ r_cmd req0 ∧ expanduser linux_enoent environ x = inl ENOENT) ∨
   (∃ c, calls_of (launch linux_enoent req0) st0 = [c] ∧
         call_fault linux_enoent c = Some ENOENT)).
Proof.
  split; [vm_compute; reflexivity|].
  exact (X13_outcomes_of_a_launch linux_enoent req0 st0 (launch linux_enoent req0)
           (or_introl eq_refl)).
Defined.
